(** * Hist: a shallow embedding of the history search tool

    The development follows the Python sources:
    - [Py]            the Python primitives the sources rely on (exceptions,
                      indexing, slicing, [str.lower], [str.isprintable],
                      [strftime]);
    - [HistoryLoader] [history_loader.py]: [load_history], [filter_history],
                      [_fuzzy_match];
    - [Wide]          [_fuzzy_match] over any alphabet and any lower-casing
                      function, for the code points beyond 255;
    - [IO]            the calls into the environment: the terminal, the
                      console, the log file and the shell, each with the
                      exceptions it can raise;
    - [CommandRunner] [runner.py]: [execute], [_log_command];
    - [HistUI]        [hist.py]: the selection state and the interactive loop;
    - [Utils]         [utils.py]: [truncate_command], [format_command_list].

    Python [str] values are modelled as [string]; a character is a code point
    in the range 0..255.  Python [int] values are modelled as [Z]. *)

From Stdlib Require Import ZArith Ascii String Lia.
From stdpp Require Import gmap strings list pretty.

Local Open Scope Z_scope.

(** ** Python primitives *)

Module Py.

(** The exception classes that occur.  [KeyboardInterrupt] and [SystemExit]
    derive from [BaseException] only, the others from [Exception].
    [MarkupError] is what the console raises for a text whose markup it
    cannot parse, [TermiosError] is [termios.error]. *)
Inductive exn : Type :=
| IndexError
| OSError
| KeyboardInterrupt
| SystemExit (code : Z)
| MarkupError
| TermiosError.

Definition is_Exception (e : exn) : bool :=
  match e with
  | IndexError | OSError | MarkupError | TermiosError => true
  | KeyboardInterrupt | SystemExit _ => false
  end.

(** The outcome of evaluating an expression: a value or a raised exception. *)
Inductive result (A : Type) : Type :=
| Ok (a : A)
| Raise (e : exn).
Arguments Ok {A} a.
Arguments Raise {A} e.

Definition bind {A B} (r : result A) (k : A → result B) : result B :=
  match r with
  | Ok a => k a
  | Raise e => Raise e
  end.

Definition len {A} (l : list A) : Z := Z.of_nat (length l).

(** [l[i]], negative indices counting from the end. *)
Definition getitem {A} (l : list A) (i : Z) : result A :=
  let j := if i <? 0 then i + len l else i in
  if j <? 0 then Raise IndexError
  else match l !! Z.to_nat j with
       | Some x => Ok x
       | None => Raise IndexError
       end.

(** [l[:stop]]. *)
Definition slice_to {A} (l : list A) (stop : Z) : list A :=
  if stop <? 0 then take (Z.to_nat (len l + stop)) l
  else take (Z.to_nat stop) l.

Definition chars (s : string) : list ascii := list_ascii_of_string s.
Definition str_len (s : string) : Z := len (chars s).
Definition str_getitem (s : string) (i : Z) : result ascii :=
  getitem (chars s) i.
Definition str_slice_to (s : string) (stop : Z) : string :=
  string_of_list_ascii (slice_to (chars s) stop).

(** Truth value of a [str] and of a [list]: non-empty. *)
Definition str_truthy (s : string) : bool :=
  match s with EmptyString => false | String _ _ => true end.
Definition list_truthy {A} (l : list A) : bool :=
  match l with [] => false | _ :: _ => true end.

(** [str.lower] on code points 0..255: A-Z and the upper-case Latin-1
    letters (all of 192..222 but the multiplication sign 215) move up by
    32, every other code point is kept. *)
Definition lower_char (c : ascii) : ascii :=
  let n := N_of_ascii c in
  if ((65 <=? n) && (n <=? 90) ||
      (192 <=? n) && (n <=? 222) && negb (n =? 215))%N
  then ascii_of_N (n + 32)
  else c.

Fixpoint lower (s : string) : string :=
  match s with
  | EmptyString => EmptyString
  | String c s' => String (lower_char c) (lower s')
  end.

(** [str.isprintable] on code points 0..255: 32..126 and 161..255 except
    the soft hyphen 173.  The empty string is printable. *)
Definition isprintable_char (c : ascii) : bool :=
  let n := N_of_ascii c in
  ((32 <=? n) && (n <=? 126) || (161 <=? n) && negb (n =? 173))%N.

Fixpoint isprintable (s : string) : bool :=
  match s with
  | EmptyString => true
  | String c s' => isprintable_char c && isprintable s'
  end.

(** [datetime] and [strftime("%Y-%m-%d %H:%M:%S")].  Month, day, hour,
    minute and second are zero-padded to two digits.  The year of a
    [datetime] lies in 1..9999 and is printed in decimal without
    padding, as the C library does. *)
Record datetime : Type := {
  year : nat; month : nat; day : nat;
  hour : nat; minute : nat; second : nat
}.

Definition digit (n : nat) : ascii := ascii_of_nat (48 + n mod 10).

Definition dec2 (n : nat) : string :=
  String (digit (n / 10)) (String (digit n) EmptyString).

Definition dec4 (n : nat) : string :=
  String (digit (n / 1000)) (String (digit (n / 100)) (dec2 n)).

Definition dec_year (n : nat) : string :=
  if (n <? 10)%nat then String (digit n) EmptyString
  else if (n <? 100)%nat then dec2 n
  else if (n <? 1000)%nat then String (digit (n / 100)) (dec2 n)
  else dec4 n.

Definition strftime (t : datetime) : string :=
  dec_year (year t) +:+ "-" +:+ dec2 (month t) +:+ "-" +:+ dec2 (day t)
    +:+ " " +:+ dec2 (hour t) +:+ ":" +:+ dec2 (minute t)
    +:+ ":" +:+ dec2 (second t).

(** [s[start:]]. *)
Definition slice_from {A} (l : list A) (start : Z) : list A :=
  if start <? 0 then drop (Z.to_nat (len l + start)) l
  else drop (Z.to_nat start) l.

Definition str_slice_from (s : string) (start : Z) : string :=
  string_of_list_ascii (slice_from (chars s) start).

(** [range(n)]. *)
Definition range (n : Z) : list Z := Z.of_nat <$> seq 0 (Z.to_nat n).

(** [str(n)] for an [int], as an f-string formats it. *)
Definition str_of_int (n : Z) : string := pretty n.

(** [sep.join(l)]. *)
Definition join (sep : string) (l : list string) : string :=
  String.concat sep l.

(** [str.isspace] on code points 0..255: 9..13, 28..32, 133 and 160. *)
Definition isspace_char (c : ascii) : bool :=
  let n := N_of_ascii c in
  ((9 <=? n) && (n <=? 13) || (28 <=? n) && (n <=? 32)
   || (n =? 133) || (n =? 160))%N.

(** [str.strip()]: white space removed at both ends. *)
Fixpoint lstrip (s : string) : string :=
  match s with
  | EmptyString => EmptyString
  | String c s' => if isspace_char c then lstrip s' else s
  end.

Fixpoint rstrip (s : string) : string :=
  match s with
  | EmptyString => EmptyString
  | String c s' =>
      match rstrip s' with
      | EmptyString =>
          if isspace_char c then EmptyString else String c EmptyString
      | r => String c r
      end
  end.

Definition strip (s : string) : string := rstrip (lstrip s).

(** [s.startswith(p)] and [sub in s]. *)
Definition startswith (s p : string) : bool := String.prefix p s.

Fixpoint contains (sub s : string) : bool :=
  String.prefix sub s ||
  match s with
  | EmptyString => false
  | String _ s' => contains sub s'
  end.

(** [s.split(sep, 1)] for a one-character separator: [s] itself when
    [sep] does not occur, else what is before and what is after its
    first occurrence. *)
Fixpoint split_once (sep : ascii) (s : string) : list string :=
  match s with
  | EmptyString => [EmptyString]
  | String c s' =>
      if Ascii.eqb c sep then [EmptyString; s']
      else match split_once sep s' with
           | [] => [String c EmptyString]
           | head :: parts => String c head :: parts
           end
  end.

End Py.

Export Py(exn(..), result(..)).

Notation "'let*' x := r 'in' k" := (Py.bind r (λ x, k))
  (at level 10, x pattern, r at level 100, k at level 200, only parsing).

(** ** history_loader.py *)

Module HistoryLoader.

(** One iteration of the deduplication loop of [load_history]:
    [if cmd and cmd not in seen: seen.add(cmd); deduplicated.append(cmd)]. *)
Definition dedup_step (acc : gset string * list string) (cmd : string)
  : gset string * list string :=
  let '(seen, deduplicated) := acc in
  if Py.str_truthy cmd && bool_decide (cmd ∉ seen)
  then ({[cmd]} ∪ seen, deduplicated ++ [cmd])
  else (seen, deduplicated).

(** [load_history].  [parsed] holds, file by file, what
    [_parse_history_file] returned (a file that could not be read
    contributes no command).  The update of [command_frequency] does not
    influence the returned list and is left out. *)
Definition load_history (parsed : list (list string)) : list string :=
  let commands := concat parsed in
  let '(_, deduplicated) := foldl dedup_step (∅, []) (reverse commands) in
  reverse deduplicated.

(** The [for char in text] loop of [_fuzzy_match]; the early [return True]
    ends the recursion. *)
Fixpoint fuzzy_match_loop (pattern : string) (text : list ascii)
    (pattern_idx : Z) : result bool :=
  match text with
  | [] => Ok (pattern_idx =? Py.str_len pattern)
  | char :: text' =>
      let* p := Py.str_getitem pattern pattern_idx in
      if Ascii.eqb char p then
        let pattern_idx := pattern_idx + 1 in
        if pattern_idx =? Py.str_len pattern then Ok true
        else fuzzy_match_loop pattern text' pattern_idx
      else fuzzy_match_loop pattern text' pattern_idx
  end.

Definition _fuzzy_match (text pattern : string) : result bool :=
  if negb (Py.str_truthy pattern) then Ok true
  else fuzzy_match_loop pattern (Py.chars text) 0.

(** The [for cmd in history] loop of [filter_history]. *)
Fixpoint filter_loop (query_lower : string) (history filtered : list string)
  : result (list string) :=
  match history with
  | [] => Ok filtered
  | cmd :: history' =>
      let* b := _fuzzy_match (Py.lower cmd) query_lower in
      filter_loop query_lower history'
        (if b then filtered ++ [cmd] else filtered)
  end.

Definition filter_history (history : list string) (query : string)
  : result (list string) :=
  if negb (Py.str_truthy query) then Ok history
  else filter_loop (Py.lower query) history [].

(** The fuzzy matcher as [filter_history] applies it to one command:
    both strings are lower-cased first. *)
Definition matches (candidate pattern : string) : result bool :=
  _fuzzy_match (Py.lower candidate) (Py.lower pattern).

(** A history file as [_parse_history_file] reads it: the lines the
    iteration over the file yields, and, when reading fails, the number of
    lines yielded before the error ([Some 0]: the file cannot be opened). *)
Record file : Type := mkFile {
  lines : list string;
  read_error : option nat
}.

(** The body of the three [for line in f] loops. *)
Definition zsh_line (commands : list string) (line : string) : list string :=
  let line := Py.strip line in
  if Py.startswith line ":" then
    match Py.split_once ";" line with
    | [_; command] => commands ++ [command]   (* [len(parts) == 2] *)
    | _ => commands
    end
  else commands ++ [line].

Definition fish_line (commands : list string) (line : string) : list string :=
  let line := Py.strip line in
  if Py.startswith line "- cmd:" then
    let cmd := Py.strip (Py.str_slice_from line 6) in
    commands ++ [cmd]
  else commands.

Definition bash_line (commands : list string) (line : string) : list string :=
  let line := Py.strip line in
  if Py.str_truthy line then commands ++ [line] else commands.

(** [for line in f: body], which stops with an exception when reading
    fails; [commands] keeps what was appended before. *)
Fixpoint parse_loop (body : list string → string → list string)
    (commands lines : list string) (read_error : option nat)
  : list string * option exn :=
  match read_error with
  | Some O => (commands, Some OSError)
  | _ =>
      match lines with
      | [] => (commands, None)
      | line :: lines' =>
          parse_loop body (body commands line) lines' (pred <$> read_error)
      end
  end.

(** [_parse_history_file]; [name] is [filepath.name].  The exception of a
    failed read is caught and [commands] returned as it is. *)
Definition _parse_history_file (name : string) (f : file) : list string :=
  let body :=
    if Py.contains ".zsh_history" name || String.eqb name ".zsh_history"
    then zsh_line
    else if Py.contains "fish_history" name || String.eqb name "fish_history"
    then fish_line
    else bash_line in
  let '(commands, _) := parse_loop body [] (lines f) (read_error f) in
  commands.

(** The names of the files [_detect_history_files] looks for under the
    home directory, in its order; a home directory gives the file of a
    name when it exists. *)
Definition potential_files : list string :=
  [".bash_history"; ".zsh_history"; "fish_history"].

Definition _detect_history_files (home : string → option file)
  : list (string * file) :=
  omap (λ name, (λ f, (name, f)) <$> home name) potential_files.

(** [load_history] on the files themselves: every detected file is parsed
    and its commands appended. *)
Definition load_history_from (home : string → option file) : list string :=
  load_history
    ((λ nf, _parse_history_file nf.1 nf.2) <$> _detect_history_files home).

(** [command_frequency], a [Counter], and its [update] with a list. *)
Definition counter_update (counter : gmap string Z) (l : list string)
  : gmap string Z :=
  foldl (λ c x, <[x := default 0 (c !! x) + 1]> c) counter l.

(** The state [load_history] leaves in [command_frequency]. *)
Definition load_history_frequency (command_frequency : gmap string Z)
    (parsed : list (list string)) : gmap string Z :=
  counter_update command_frequency (load_history parsed).

Definition rank_by_frequency (command_frequency : gmap string Z)
    (commands : list string) : list (string * Z) :=
  (λ cmd, (cmd, default 1 (command_frequency !! cmd))) <$> commands.

End HistoryLoader.

(** ** The matcher beyond the code points 0..255 *)

(** Beyond the code points 0..255 [str.lower] does not map character to
    character: the capital I with a dot above, U+0130, becomes an i followed
    by the combining dot U+0307.  [_fuzzy_match] and the matcher are given
    here for strings over any alphabet [char], with any function [lower] in
    the place of [str.lower]. *)
Module Wide.

Section Matcher.

Context {char : Type} `{EqDecision char}.
Variable lower : list char → list char.

Fixpoint fuzzy_match_loop (pattern text : list char) (pattern_idx : Z)
  : result bool :=
  match text with
  | [] => Ok (pattern_idx =? Py.len pattern)
  | c :: text' =>
      let* p := Py.getitem pattern pattern_idx in
      if bool_decide (c = p) then
        let pattern_idx := pattern_idx + 1 in
        if pattern_idx =? Py.len pattern then Ok true
        else fuzzy_match_loop pattern text' pattern_idx
      else fuzzy_match_loop pattern text' pattern_idx
  end.

Definition _fuzzy_match (text pattern : list char) : result bool :=
  if negb (Py.list_truthy pattern) then Ok true
  else fuzzy_match_loop pattern text 0.

Definition matches (candidate pattern : list char) : result bool :=
  _fuzzy_match (lower candidate) (lower pattern).

End Matcher.

(** The code points 0..255 together with U+0130 and U+0307, and
    [str.lower] on strings of them. *)
Inductive code_point : Type :=
| Latin1 (c : ascii)
| CapitalIDot
| CombiningDot.

#[global] Instance code_point_eq_dec : EqDecision code_point.
Proof. solve_decision. Defined.

Definition lower_code_point (c : code_point) : list code_point :=
  match c with
  | Latin1 c => [Latin1 (Py.lower_char c)]
  | CapitalIDot => [Latin1 "i"; CombiningDot]
  | CombiningDot => [CombiningDot]
  end.

Definition lower (s : list code_point) : list code_point :=
  s ≫= lower_code_point.

(** [str.lower] of the first part of the development, on lists of
    characters. *)
Definition lower_latin1 (s : list ascii) : list ascii :=
  Py.chars (Py.lower (string_of_list_ascii s)).

End Wide.

(** ** The environment of the process *)

(** What happens when the log file is opened and written: nothing goes
    wrong, [open] raises, or [write] raises after [written] characters
    reached the file. *)
Inductive log_fault : Type :=
| LogOk
| OpenFails
| WriteFails (written : nat).

Record World : Type := mkWorld {
  stdin : list ascii;              (* terminal input not read yet *)
  tty_raw : bool;                  (* terminal mode *)
  parsed_files : list (list string);
                                   (* [_parse_history_file] of each file *)
  now : Py.datetime;               (* [datetime.now()] *)
  log_io : log_fault;
  log_file : string;               (* contents of the log file *)
  shell : string → option Z;       (* return code of a command; [None]:
                                      the shell could not be started *)
  shell_runs : list string;        (* commands given to [subprocess.run] *)
  console : string → option exn;   (* what [console.print] raises for a
                                      text; [None]: the text is printed *)
  isatty : bool;                   (* standard input is a terminal *)
  hangup : bool                    (* the terminal goes away once its input
                                      has run out *)
}.

Definition set_stdin (i : list ascii) (w : World) : World :=
  mkWorld i (tty_raw w) (parsed_files w) (now w) (log_io w) (log_file w)
    (shell w) (shell_runs w) (console w) (isatty w) (hangup w).
Definition set_tty_raw (b : bool) (w : World) : World :=
  mkWorld (stdin w) b (parsed_files w) (now w) (log_io w) (log_file w)
    (shell w) (shell_runs w) (console w) (isatty w) (hangup w).
Definition set_log_file (s : string) (w : World) : World :=
  mkWorld (stdin w) (tty_raw w) (parsed_files w) (now w) (log_io w) s
    (shell w) (shell_runs w) (console w) (isatty w) (hangup w).
Definition set_shell_runs (l : list string) (w : World) : World :=
  mkWorld (stdin w) (tty_raw w) (parsed_files w) (now w) (log_io w)
    (log_file w) (shell w) l (console w) (isatty w) (hangup w).

(** Effectful code: the environment is threaded through, and it keeps the
    changes made before an exception was raised. *)
Definition IO (A : Type) : Type := World → result A * World.

Module IO.

Definition ret {A} (a : A) : IO A := λ w, (Ok a, w).
Definition raise {A} (e : exn) : IO A := λ w, (Raise e, w).

Definition bind {A B} (m : IO A) (k : A → IO B) : IO B := λ w,
  match m w with
  | (Ok a, w') => k a w'
  | (Raise e, w') => (Raise e, w')
  end.

(** [try: m  except Exception: handler] *)
Definition try_except_Exception {A} (m handler : IO A) : IO A := λ w,
  match m w with
  | (Raise e, w') => if Py.is_Exception e then handler w' else (Raise e, w')
  | r => r
  end.

(** The terminal cannot be used: standard input is no terminal, or the
    terminal went away. *)
Definition tty_lost (w : World) : bool :=
  negb (isatty w) || hangup w && bool_decide (stdin w = []).

(** [sys.stdin.read(1)]: the next character; at the end of the input the
    empty string, or [OSError] when the terminal went away. *)
Definition stdin_read1 : IO string := λ w,
  match stdin w with
  | [] => if hangup w then (Raise OSError, w) else (Ok EmptyString, w)
  | c :: rest => (Ok (String c EmptyString), set_stdin rest w)
  end.

(** [termios.tcgetattr(fd)], [tty.setraw(fd)] and
    [termios.tcsetattr(fd, termios.TCSADRAIN, settings)]: each raises
    [termios.error] on a terminal that cannot be used. *)
Definition tcgetattr : IO bool := λ w,
  if tty_lost w then (Raise TermiosError, w) else (Ok (tty_raw w), w).

Definition setraw : IO unit := λ w,
  if tty_lost w then (Raise TermiosError, w) else (Ok (), set_tty_raw true w).

Definition tcsetattr (settings : bool) : IO unit := λ w,
  if tty_lost w then (Raise TermiosError, w)
  else (Ok (), set_tty_raw settings w).

(** [console.print(text)]: the console parses the text as markup and
    raises for a text it cannot parse, such as one with a closing tag that
    closes nothing. *)
Definition console_print (text : string) : IO unit := λ w,
  match console w text with
  | None => (Ok (), w)
  | Some e => (Raise e, w)
  end.

End IO.

Notation "'do' x ← m ; k" := (IO.bind m (λ x, k))
  (at level 10, x pattern, m at level 100, k at level 200, only parsing).

(** ** runner.py *)

Module CommandRunner.

Definition newline : string := String "010"%char EmptyString.

Definition log_entry (t : Py.datetime) (command : string) : string :=
  "[" +:+ Py.strftime t +:+ "] " +:+ command +:+ newline.

(** The [try] block of [_log_command]: the file is opened in append mode,
    so what is written goes after the present contents. *)
Definition log_write (command : string) : IO unit := λ w,
  let entry := log_entry (now w) command in
  match log_io w with
  | LogOk => (Ok (), set_log_file (log_file w +:+ entry) w)
  | OpenFails => (Raise OSError, w)
  | WriteFails n =>
      (Raise OSError,
       set_log_file
         (log_file w +:+ string_of_list_ascii (take n (Py.chars entry))) w)
  end.

Definition _log_command (command : string) : IO unit :=
  IO.try_except_Exception (log_write command) (IO.ret ()).

(** [subprocess.run(command, shell=True, ...)], giving the return code. *)
Definition subprocess_run (command : string) : IO Z := λ w,
  let w' := set_shell_runs (shell_runs w ++ [command]) w in
  match shell w command with
  | Some returncode => (Ok returncode, w')
  | None => (Raise OSError, w')
  end.

Definition execute (command : string) (log : bool) : IO bool :=
  do _ ← (if log then _log_command command else IO.ret ());
  IO.try_except_Exception
    (do returncode ← subprocess_run command; IO.ret (returncode =? 0))
    (IO.ret false).

End CommandRunner.

(** ** hist.py *)

Module HistUI.

Record t : Type := mk {
  query : string;
  selected_idx : Z;
  max_display : Z;
  history : list string;
  filtered_history : list string
}.

Definition set_query (q : string) (self : t) : t :=
  mk q (selected_idx self) (max_display self) (history self)
    (filtered_history self).
Definition set_selected_idx (i : Z) (self : t) : t :=
  mk (query self) i (max_display self) (history self)
    (filtered_history self).
Definition set_history (h : list string) (self : t) : t :=
  mk (query self) (selected_idx self) (max_display self) h
    (filtered_history self).
Definition set_filtered_history (f : list string) (self : t) : t :=
  mk (query self) (selected_idx self) (max_display self) (history self) f.

Definition __init__ : t :=
  {| query := EmptyString; selected_idx := 0; max_display := 15;
     history := []; filtered_history := [] |}.

Definition _update_filter (self : t) : result t :=
  let* filtered :=
    (if Py.str_truthy (query self)
     then HistoryLoader.filter_history (history self) (query self)
     else Ok (history self)) in
  let self := set_filtered_history filtered self in
  Ok (if selected_idx self >=? Py.len (filtered_history self)
      then set_selected_idx
             (Z.max 0 (Py.len (filtered_history self) - 1)) self
      else self).

Definition _move_selection_up (self : t) : t :=
  if selected_idx self >? 0
  then set_selected_idx (selected_idx self - 1) self
  else self.

Definition _move_selection_down (self : t) : t :=
  if selected_idx self <? Py.len (filtered_history self) - 1
  then set_selected_idx (selected_idx self + 1) self
  else self.

(** The lines [_render_ui] hands to the console: [display_lines].
    [arrow] is the mark of the selected row, a character beyond the code
    points modelled here. *)
Fixpoint render_rows (arrow : string) (self : t) (indices : list Z)
    (display_lines : list string) : result (list string) :=
  match indices with
  | [] => Ok display_lines
  | i :: indices' =>
      let* cmd := Py.getitem (filtered_history self) i in
      render_rows arrow self indices'
        (display_lines ++
         [if i =? selected_idx self
          then "[bold green]" +:+ arrow +:+ " " +:+ cmd +:+ "[/bold green]"
          else "  " +:+ cmd])
  end.

Definition _render_ui_lines (arrow : string) (self : t)
  : result (list string) :=
  if Py.list_truthy (filtered_history self) then
    let display_count :=
      Z.min (Py.len (filtered_history self)) (max_display self) in
    let* display_lines :=
      render_rows arrow self (Py.range display_count) [] in
    Ok (if Py.len (filtered_history self) >? max_display self
        then display_lines ++
             ["[dim]  ... and "
                +:+ Py.str_of_int
                      (Py.len (filtered_history self) - max_display self)
                +:+ " more[/dim]"]
        else display_lines)
  else Ok ["[yellow]No commands match your search.[/yellow]"].

(** The line of the search bar; [block] is the cursor drawn after the
    query, a character beyond the code points modelled here. *)
Definition search_bar (block : string) (self : t) : string :=
  CommandRunner.newline +:+ "[bold blue]Search:[/bold blue] "
    +:+ query self +:+ block.

(** [_render_ui]: the rows and the search bar are printed as markup. *)
Definition _render_ui (arrow block : string) (self : t) : IO unit := λ w,
  match _render_ui_lines arrow self with
  | Ok display_lines =>
      (do _ ← IO.console_print (Py.join CommandRunner.newline display_lines);
       IO.console_print (search_bar block self)) w
  | Raise e => (Raise e, w)
  end.

(** The line that announces the command about to be run. *)
Definition executing_line (command : string) : string :=
  "[bold green]Executing:[/bold green] " +:+ command
    +:+ CommandRunner.newline.

Definition _execute_command (command : string) : IO unit :=
  do _ ← IO.console_print (executing_line command);
  do _ ← CommandRunner.execute command true; IO.ret ().

Inductive control : Type := Continue | Break.

Definition char_is (char : string) (c : ascii) : bool :=
  String.eqb char (String c EmptyString).

(** The part of an iteration of the [while True] loop that follows the
    call of [_render_ui]: a character is read and handled. *)
Definition loop_body (self : t) : IO (control * t) :=
  do char ← IO.stdin_read1;
  if char_is char "003" then IO.raise KeyboardInterrupt
  else if char_is char "027" then
    do next1 ← IO.stdin_read1;
    do next2 ← IO.stdin_read1;
    if char_is next1 "[" then
      if char_is next2 "A" then IO.ret (Continue, _move_selection_up self)
      else if char_is next2 "B" then
        IO.ret (Continue, _move_selection_down self)
      else IO.ret (Continue, self)
    else IO.ret (Continue, self)
  else if char_is char "013" || char_is char "010" then
    if Py.list_truthy (filtered_history self)
       && ((0 <=? selected_idx self)
           && (selected_idx self <? Py.len (filtered_history self)))
    then
      λ w, match Py.getitem (filtered_history self) (selected_idx self) with
           | Ok selected_cmd =>
               (do _ ← _execute_command selected_cmd;
                IO.ret (Break, self)) w
           | Raise e => (Raise e, w)
           end
    else IO.ret (Continue, self)
  else if char_is char "127" then
    if Py.str_truthy (query self) then
      λ w, match _update_filter
                   (set_query (Py.str_slice_to (query self) (-1)) self) with
           | Ok self' => (Ok (Continue, self'), w)
           | Raise e => (Raise e, w)
           end
    else IO.ret (Continue, self)
  else if Py.isprintable char then
    λ w, match _update_filter (set_query (query self +:+ char) self) with
         | Ok self' => (Ok (Continue, self'), w)
         | Raise e => (Raise e, w)
         end
  else IO.ret (Continue, self).

(** One iteration of the [while True] loop. *)
Definition iteration (arrow block : string) (self : t)
  : IO (control * t) :=
  do _ ← _render_ui arrow block self; loop_body self.

(** The [while True] loop, for at most [fuel] iterations; [None] when it
    is still running after that. *)
Fixpoint while_true (arrow block : string) (fuel : nat) (self : t)
    (w : World) : option (result t * World) :=
  match fuel with
  | O => None
  | S fuel' =>
      match iteration arrow block self w with
      | (Ok (Continue, self'), w') => while_true arrow block fuel' self' w'
      | (Ok (Break, self'), w') => Some (Ok self', w')
      | (Raise e, w') => Some (Raise e, w')
      end
  end.

(** [_interactive_loop]: the terminal settings are read, then, inside
    [try], raw mode and the loop; the [finally] clause restores the
    settings, and what it raises replaces the outcome of the loop. *)
Definition _interactive_loop (arrow block : string) (fuel : nat) (self : t)
    (w : World) : option (result t * World) :=
  match IO.tcgetattr w with
  | (Raise e, w0) => Some (Raise e, w0)
  | (Ok old_settings, w0) =>
      let tried :=
        match IO.setraw w0 with
        | (Raise e, w1) => Some (Raise e, w1)
        | (Ok _, w1) => while_true arrow block fuel self w1
        end in
      match tried with
      | None => None
      | Some (r, w2) =>
          match IO.tcsetattr old_settings w2 with
          | (Raise e, w3) => Some (Raise e, w3)
          | (Ok _, w3) => Some (r, w3)
          end
      end
  end.

(** [run] up to the call of [_interactive_loop]: the state in which the
    session starts, or [sys.exit(1)].  The texts printed on the way are
    fixed ones. *)
Definition run_setup (self : t) : IO t := λ w,
  let self := set_history (HistoryLoader.load_history (parsed_files w)) self in
  if negb (Py.list_truthy (history self)) then (Raise (SystemExit 1), w)
  else
    (Ok (set_filtered_history
           (Py.slice_to (history self) (max_display self)) self), w).

Definition run (arrow block : string) (fuel : nat) (self : t) (w : World)
  : option (result t * World) :=
  match run_setup self w with
  | (Ok self', w') =>
      match _interactive_loop arrow block fuel self' w' with
      | Some (Raise KeyboardInterrupt, w'') =>
          Some (Raise (SystemExit 0), w'')
      | r => r
      end
  | (Raise e, w') => Some (Raise e, w')
  end.

(** [main]: a fresh [HistUI], then [run]. *)
Definition main (arrow block : string) (fuel : nat) (w : World)
  : option (result t * World) :=
  run arrow block fuel __init__ w.

End HistUI.

(** ** utils.py *)

Module Utils.

Definition truncate_command (command : string) (max_length : Z) : string :=
  if Py.str_len command <=? max_length then command
  else Py.str_slice_to command (max_length - 3) +:+ "...".

(** [highlight_query] returns its text as it is. *)
Definition highlight_query (text query : string) : string := text.

(** The [for i in range(display_count)] loop of [format_command_list];
    [arrow] is the mark of the selected row. *)
Fixpoint format_rows (arrow : string) (commands : list string)
    (selected_idx : Z) (query : string) (indices : list Z)
    (lines : list string) : result (list string) :=
  match indices with
  | [] => Ok lines
  | i :: indices' =>
      let* cmd := Py.getitem commands i in
      let prefix := if i =? selected_idx then arrow +:+ " " else "  " in
      format_rows arrow commands selected_idx query indices'
        (lines ++
         [if Py.str_truthy query
          then prefix +:+ highlight_query cmd query
          else prefix +:+ cmd])
  end.

(** The list [lines] that [format_command_list] joins. *)
Definition format_command_lines (arrow : string) (commands : list string)
    (max_display selected_idx : Z) (query : string) : result (list string) :=
  let display_count := Z.min (Py.len commands) max_display in
  let* lines :=
    format_rows arrow commands selected_idx query
      (Py.range display_count) [] in
  Ok (if Py.len commands >? max_display
      then lines ++
           ["  ... and " +:+ Py.str_of_int (Py.len commands - max_display)
              +:+ " more"]
      else lines).

Definition format_command_list (arrow : string) (commands : list string)
    (max_display selected_idx : Z) (query : string) : result string :=
  if negb (Py.list_truthy commands) then Ok "No commands found."
  else
    let* lines :=
      format_command_lines arrow commands max_display selected_idx query in
    Ok (Py.join CommandRunner.newline lines).

End Utils.

(** ** Notions used to state the properties *)

Import HistUI(query, selected_idx, max_display, history, filtered_history,
              Continue, Break).

(** [pattern] is a subsequence of [candidate]: its characters occur in
    [candidate] in the same order, at distinct positions. *)
Definition subsequence (pattern candidate : string) : Prop :=
  Py.chars pattern `sublist_of` Py.chars candidate.

(** The boolean a call of the matcher yields. *)
Definition succeeds (r : result bool) : bool :=
  match r with Ok b => b | Raise _ => false end.

(** The invariant of the selection index. *)
Definition index_invariant (self : HistUI.t) : Prop :=
  (filtered_history self ≠ [] →
     0 ≤ selected_idx self < Py.len (filtered_history self)) ∧
  (filtered_history self = [] → selected_idx self = 0).

(** The index designates an entry of a non-empty filtered list. *)
Definition index_in_range (self : HistUI.t) : Prop :=
  filtered_history self ≠ [] ∧
  0 ≤ selected_idx self < Py.len (filtered_history self).

(** The editing and navigation events, and the characters the terminal
    sends for each of them. *)
Inductive event : Type :=
| Append (c : ascii)
| Backspace
| MoveUp
| MoveDown.

Definition keystroke (ev : event) : list ascii :=
  match ev with
  | Append c => [c]
  | Backspace => ["127"%char]
  | MoveUp => ["027"%char; "["%char; "A"%char]
  | MoveDown => ["027"%char; "["%char; "B"%char]
  end.

Definition printable_event (ev : event) : Prop :=
  match ev with
  | Append c => Py.isprintable_char c = true
  | _ => True
  end.

(** The states of the selection state machine that a session can be in
    at the top of the loop. *)
Inductive reachable : HistUI.t → Prop :=
| reachable_start w self w' :
    HistUI.run_setup HistUI.__init__ w = (Ok self, w') →
    reachable self
| reachable_step self w self' w' :
    reachable self →
    HistUI.loop_body self w = (Ok (Continue, self'), w') →
    reachable self'.

(** [n] events read and handled one after the other, none of which
    leaves the loop. *)
Fixpoint continues (n : nat) (self : HistUI.t) (w : World)
  : option (HistUI.t * World) :=
  match n with
  | O => Some (self, w)
  | S n' =>
      match HistUI.loop_body self w with
      | (Ok (Continue, self'), w') => continues n' self' w'
      | _ => None
      end
  end.

(** [n] iterations of the loop, none of which leaves it. *)
Fixpoint iterates (arrow block : string) (n : nat) (self : HistUI.t)
    (w : World) : option (HistUI.t * World) :=
  match n with
  | O => Some (self, w)
  | S n' =>
      match HistUI.iteration arrow block self w with
      | (Ok (Continue, self'), w') => iterates arrow block n' self' w'
      | _ => None
      end
  end.

(** The parts of the environment that the loop leaves as they are. *)
Definition untouched (w w' : World) : Prop :=
  tty_raw w' = tty_raw w ∧ parsed_files w' = parsed_files w ∧
  console w' = console w ∧ isatty w' = isatty w ∧ hangup w' = hangup w.




(** The filtered view: a part of the history in its order, holding only
    commands that match the query, and, once the query is not empty, all
    of them. *)
Definition view_invariant (self : HistUI.t) : Prop :=
  filtered_history self `sublist_of` history self ∧
  Forall (λ cmd, HistoryLoader.matches cmd (query self) = Ok true)
    (filtered_history self) ∧
  (Py.str_truthy (query self) = true →
   HistoryLoader.filter_history (history self) (query self)
   = Ok (filtered_history self)).

(** A line of the display that is not the marked row. *)
Definition unmarked (line : string) : Prop :=
  String.prefix "[bold green]" line = false.

(** A loop body of [_parse_history_file] that only appends to
    [commands]. *)
Definition appends (body : list string → string → list string) : Prop :=
  ∀ commands line, ∃ new, ∀ before,
    body (before ++ commands) line = before ++ commands ++ new.

(** ** Sample environments *)

Definition noon : Py.datetime :=
  {| Py.year := 2024; Py.month := 3; Py.day := 9;
     Py.hour := 12; Py.minute := 0; Py.second := 7 |}.

Definition sample_world (files : list (list string)) (input : string) : World :=
  {| stdin := Py.chars input; tty_raw := false; parsed_files := files;
     now := noon; log_io := LogOk; log_file := EmptyString;
     shell := λ _, Some 0; shell_runs := [];
     console := λ _, None; isatty := true; hangup := false |}.

Definition sample_history : list string :=
  ["ls -la"; "cd /tmp"; "git status"; "python script.py"].

Definition sixteen : list string :=
  ["c01"; "c02"; "c03"; "c04"; "c05"; "c06"; "c07"; "c08";
   "c09"; "c10"; "c11"; "c12"; "c13"; "c14"; "c15"; "c16"].

(** The state in which a session over [sample_history] starts, and the
    state after [z], which no command matches, was typed. *)
Definition sample_start : HistUI.t :=
  HistUI.mk EmptyString 0 15 sample_history sample_history.

Definition no_match : HistUI.t :=
  HistUI.mk "z" 0 15 sample_history [].

(** A state in which the selection lies beyond the rows displayed. *)
Definition beyond_display : HistUI.t :=
  HistUI.mk EmptyString 15 15 sixteen sixteen.

(** Fifteen plain commands and a sixteenth that holds a closing tag; a
    console that raises for a text in which this tag occurs, as no tag of
    that name is open where the command is printed; and the state in which
    the selection is on the sixteenth command. *)
Definition markup_history : list string :=
  take 15 sixteen ++ ["echo [/dev/null]"].

Definition markup_world (input : string) : World :=
  {| stdin := Py.chars input; tty_raw := false;
     parsed_files := [markup_history];
     now := noon; log_io := LogOk; log_file := EmptyString;
     shell := λ _, Some 0; shell_runs := [];
     console := λ text,
       if Py.contains "[/dev/null]" text then Some MarkupError else None;
     isatty := true; hangup := false |}.

Definition hidden_markup : HistUI.t :=
  HistUI.mk EmptyString 15 15 markup_history markup_history.

(** The keys that take the selection to the sixteenth command: a character
    typed and erased, which brings the sixteenth command into the filtered
    list, and fifteen times the down arrow. *)
Definition to_sixteenth : string :=
  "c" +:+ String "127"%char EmptyString
  +:+ String.concat EmptyString
        (replicate 15 (String "027"%char "[B")).

Definition esc : string := String "027"%char EmptyString.
Definition ctrl_c : string := String "003"%char EmptyString.
Definition enter : string := String "013"%char EmptyString.
Definition backspace : string := String "127"%char EmptyString.

Example fuzzy_gst :
  HistoryLoader._fuzzy_match "git status" "gst" = Ok true.
Proof. reflexivity. Qed.

Example fuzzy_tsg :
  HistoryLoader._fuzzy_match "git status" "tsg" = Ok false.
Proof. reflexivity. Qed.

Example filter_psp :
  HistoryLoader.filter_history
    ["ls -la"; "cd /tmp"; "git status"; "python script.py"] "PSP"
  = Ok ["python script.py"].
Proof. reflexivity. Qed.

Example fuzzy_repeated :
  HistoryLoader.matches "aba" "AA" = Ok true ∧
  HistoryLoader.matches "ab" "aa" = Ok false ∧
  HistoryLoader.matches "Git Status" "gst" = Ok true.
Proof. done. Qed.

(** The history of the scenarios: typing [psp] leaves one command, typing
    [git] and erasing it gives the full history back. *)
Example scenario_psp :
  option_map fst
    (continues 3 sample_start (sample_world [sample_history] "psp"))
  = Some (HistUI.mk "psp" 0 15 sample_history ["python script.py"]).
Proof. vm_compute. reflexivity. Qed.

Example scenario_git_erased :
  option_map fst
    (continues 6 sample_start
       (sample_world [sample_history]
          ("git" +:+ backspace +:+ backspace +:+ backspace)))
  = Some sample_start.
Proof. vm_compute. reflexivity. Qed.

Example load_dedup :
  HistoryLoader.load_history
    [["ls"; "cd /tmp"; "ls"; EmptyString; "git status"]]
  = ["cd /tmp"; "ls"; "git status"].
Proof. vm_compute. reflexivity. Qed.


(** * Properties *)

(** ** Python primitives *)

Lemma len_app {A} (l k : list A) : Py.len (l ++ k) = Py.len l + Py.len k.
Proof. unfold Py.len. rewrite length_app. lia. Qed.

Lemma len_nonneg {A} (l : list A) : 0 ≤ Py.len l.
Proof. unfold Py.len. lia. Qed.

Lemma len_zero {A} (l : list A) : Py.len l = 0 ↔ l = [].
Proof.
  unfold Py.len. destruct l; simpl; split; intros; try done; lia.
Qed.

Lemma getitem_nat {A} (l : list A) (i : nat) :
  Py.getitem l (Z.of_nat i)
  = match l !! i with Some x => Ok x | None => Raise IndexError end.
Proof.
  unfold Py.getitem.
  assert ((Z.of_nat i <? 0) = false) as -> by (apply Z.ltb_ge; lia).
  cbv zeta. assert ((Z.of_nat i <? 0) = false) as -> by (apply Z.ltb_ge; lia).
  by rewrite Nat2Z.id.
Qed.

Lemma getitem_middle {A} (pre suf : list A) (x : A) :
  Py.getitem (pre ++ x :: suf) (Py.len pre) = Ok x.
Proof.
  unfold Py.len. rewrite getitem_nat.
  by rewrite list_lookup_middle.
Qed.

Lemma str_truthy_false s : Py.str_truthy s = false ↔ s = EmptyString.
Proof. by destruct s. Qed.

Lemma chars_length s : length (Py.chars s) = String.length s.
Proof. induction s as [|c s IH]; simpl; [done|]. by rewrite IH. Qed.

Lemma chars_app s1 s2 : Py.chars (s1 +:+ s2) = Py.chars s1 ++ Py.chars s2.
Proof.
  induction s1 as [|c s1 IH]; [done|].
  change (Py.chars (String c (s1 +:+ s2)) = c :: Py.chars s1 ++ Py.chars s2).
  simpl. by rewrite <- IH.
Qed.

(** ** The fuzzy matcher *)

(** With the cursor at the end of [pre], the loop decides whether the rest
    of the pattern is a subsequence of the text still to be scanned.  The
    index into the pattern is always in range. *)
Lemma fuzzy_match_loop_spec pattern text : ∀ pre p suf,
  Py.chars pattern = pre ++ p :: suf →
  ∃ b, HistoryLoader.fuzzy_match_loop pattern text (Py.len pre) = Ok b ∧
       (b = true ↔ p :: suf `sublist_of` text).
Proof.
  induction text as [|c text IH]; intros pre p suf Hpat.
  - exists false. split.
    + simpl. f_equal. unfold Py.str_len. rewrite Hpat, len_app.
      apply Z.eqb_neq. unfold Py.len. simpl. lia.
    + split; [done|]. by intros ?%sublist_nil_r.
  - simpl. unfold Py.str_getitem. rewrite Hpat, getitem_middle. simpl.
    assert (Hlen : Py.str_len pattern = Py.len pre + 1 + Py.len suf).
    { unfold Py.str_len. rewrite Hpat, len_app. unfold Py.len. simpl. lia. }
    destruct (Ascii.eqb_spec c p) as [->|Hne].
    + destruct suf as [|p' suf].
      * exists true. split; [|split; [intros _|done]].
        -- rewrite Hlen. unfold Py.len at 2. simpl.
           by rewrite Z.add_0_r, Z.eqb_refl.
        -- apply sublist_skip, sublist_nil_l.
      * destruct (IH (pre ++ [p]) p' suf) as (b & Hb & Hiff).
        { rewrite Hpat. by rewrite <- app_assoc. }
        exists b. split.
        -- rewrite len_app in Hb. change (Py.len [p]) with 1 in Hb.
           rewrite <- Hb.
           destruct (Z.eqb_spec (Py.len pre + 1) (Py.str_len pattern)) as [E|_];
             [|done].
           rewrite Hlen in E. unfold Py.len in E. simpl in E. lia.
        -- rewrite Hiff. split; [apply sublist_skip|].
           intros [H|(l' & [= <-] & H)]%sublist_cons_r; [|done].
           apply sublist_cons_l in H as (k1 & k2 & -> & H).
           by apply sublist_inserts_l, sublist_cons.
    + destruct (IH pre p suf Hpat) as (b & Hb & Hiff).
      exists b. split; [done|]. rewrite Hiff. split; [apply sublist_cons|].
      intros [H|(l' & [= <- <-] & H)]%sublist_cons_r; done.
Qed.

Lemma fuzzy_match_spec text pattern :
  ∃ b, HistoryLoader._fuzzy_match text pattern = Ok b ∧
       (b = true ↔ subsequence pattern text).
Proof.
  unfold HistoryLoader._fuzzy_match, subsequence.
  destruct pattern as [|p pattern]; simpl.
  - exists true. split; [done|]. split; [intros _|done]. apply sublist_nil_l.
  - apply (fuzzy_match_loop_spec (String p pattern) (Py.chars text) []).
    done.
Qed.

Lemma matches_total candidate pattern :
  ∃ b, HistoryLoader.matches candidate pattern = Ok b ∧
       (b = true ↔ subsequence (Py.lower pattern) (Py.lower candidate)).
Proof. apply fuzzy_match_spec. Qed.

(** The same for the matcher over any alphabet. *)
Lemma wide_fuzzy_match_loop_spec {char} `{EqDecision char}
    (pattern text : list char) : ∀ pre p suf,
  pattern = pre ++ p :: suf →
  ∃ b, Wide.fuzzy_match_loop pattern text (Py.len pre) = Ok b ∧
       (b = true ↔ p :: suf `sublist_of` text).
Proof.
  induction text as [|c text IH]; intros pre p suf Hpat.
  - exists false. split.
    + simpl. f_equal. rewrite Hpat, len_app.
      apply Z.eqb_neq. unfold Py.len. simpl. lia.
    + split; [done|]. by intros ?%sublist_nil_r.
  - assert (Py.getitem pattern (Py.len pre) = Ok p) as Hget.
    { rewrite Hpat. apply getitem_middle. }
    simpl. rewrite Hget. simpl.
    assert (Hlen : Py.len pattern = Py.len pre + 1 + Py.len suf).
    { rewrite Hpat, len_app. unfold Py.len. simpl. lia. }
    destruct (bool_decide_reflect (c = p)) as [->|Hne].
    + destruct suf as [|p' suf].
      * exists true. split; [|split; [intros _|done]].
        -- rewrite Hlen. unfold Py.len at 2. simpl.
           by rewrite Z.add_0_r, Z.eqb_refl.
        -- apply sublist_skip, sublist_nil_l.
      * destruct (IH (pre ++ [p]) p' suf) as (b & Hb & Hiff).
        { rewrite Hpat. by rewrite <- app_assoc. }
        exists b. split.
        -- rewrite len_app in Hb. change (Py.len [p]) with 1 in Hb.
           rewrite <- Hb.
           destruct (Z.eqb_spec (Py.len pre + 1) (Py.len pattern)) as [E|_];
             [|done].
           rewrite Hlen in E. unfold Py.len in E. simpl in E. lia.
        -- rewrite Hiff. split; [apply sublist_skip|].
           intros [Hs|(l' & [= <-] & Hs)]%sublist_cons_r; [|done].
           apply sublist_cons_l in Hs as (k1 & k2 & -> & Hs).
           by apply sublist_inserts_l, sublist_cons.
    + destruct (IH pre p suf Hpat) as (b & Hb & Hiff).
      exists b. split; [done|]. rewrite Hiff. split; [apply sublist_cons|].
      intros [Hs|(l' & [= <- <-] & Hs)]%sublist_cons_r; done.
Qed.

Lemma wide_fuzzy_match_spec {char} `{EqDecision char}
    (text pattern : list char) :
  ∃ b, Wide._fuzzy_match text pattern = Ok b ∧
       (b = true ↔ pattern `sublist_of` text).
Proof.
  unfold Wide._fuzzy_match.
  destruct pattern as [|p pattern]; simpl.
  - exists true. split; [done|]. split; [intros _|done]. apply sublist_nil_l.
  - by apply (wide_fuzzy_match_loop_spec (p :: pattern) text []).
Qed.

(** The matcher of the first part is the matcher over the alphabet of
    the code points 0..255. *)
Lemma fuzzy_match_loop_wide pattern text : ∀ pattern_idx,
  HistoryLoader.fuzzy_match_loop pattern text pattern_idx
  = Wide.fuzzy_match_loop (Py.chars pattern) text pattern_idx.
Proof.
  induction text as [|c text IH]; intros pattern_idx; simpl; [done|].
  unfold Py.str_getitem, Py.str_len.
  destruct (Py.getitem (Py.chars pattern) pattern_idx) as [p|e]; simpl;
    [|done].
  rewrite !IH.
  destruct (Ascii.eqb_spec c p) as [->|Hne].
  - by rewrite bool_decide_eq_true_2.
  - by rewrite bool_decide_eq_false_2.
Qed.

Lemma string_of_chars s : string_of_list_ascii (Py.chars s) = s.
Proof. apply string_of_list_ascii_of_string. Qed.

Lemma matches_wide candidate pattern :
  HistoryLoader.matches candidate pattern
  = Wide.matches Wide.lower_latin1 (Py.chars candidate) (Py.chars pattern).
Proof.
  unfold HistoryLoader.matches, Wide.matches, Wide.lower_latin1.
  rewrite !string_of_chars.
  unfold HistoryLoader._fuzzy_match, Wide._fuzzy_match.
  rewrite fuzzy_match_loop_wide.
  by destruct (Py.lower pattern).
Qed.

(** C3.  Whatever function lower-cases the strings, provided it keeps the
    empty string empty: [matches] returns a boolean (it never raises), and
    this boolean is true exactly when the lower-cased pattern is a
    subsequence of the lower-cased candidate.  An empty pattern always
    matches, and a pattern whose lower-cased form is longer than the
    lower-cased candidate never does. *)
Theorem matches_folded_subsequence {char} `{EqDecision char}
    (lower : list char → list char) (candidate pattern : list char) :
  lower [] = [] →
  (∃ b, Wide.matches lower candidate pattern = Ok b ∧
        (b = true ↔ lower pattern `sublist_of` lower candidate)) ∧
  Wide.matches lower candidate [] = Ok true ∧
  ((length (lower candidate) < length (lower pattern))%nat →
   Wide.matches lower candidate pattern = Ok false).
Proof.
  intros Hnil. unfold Wide.matches.
  split; [apply wide_fuzzy_match_spec|].
  split; [by rewrite Hnil|].
  intros Hlen.
  destruct (wide_fuzzy_match_spec (lower candidate) (lower pattern))
    as (b & -> & Hiff).
  destruct b; [|done]. exfalso.
  destruct Hiff as [Hsub _]. specialize (Hsub eq_refl).
  apply sublist_length in Hsub. lia.
Qed.

Lemma matches_folded_subsequence_witness :
  Wide.matches Wide.lower [Wide.CapitalIDot]
    [Wide.Latin1 "I"; Wide.CombiningDot; Wide.Latin1 "x"]
  = Ok false.
Proof.
  apply (matches_folded_subsequence Wide.lower [Wide.CapitalIDot]
           [Wide.Latin1 "I"; Wide.CombiningDot; Wide.Latin1 "x"]).
  - reflexivity.
  - simpl. lia.
Defined.

(** The pattern i followed by U+0307 has two code points, the candidate
    U+0130 has one, and the pattern matches. *)
Lemma matches_longer_pattern_counterexample :
  (length [Wide.CapitalIDot]
   < length [Wide.Latin1 "i"; Wide.CombiningDot])%nat ∧
  Wide.matches Wide.lower [Wide.CapitalIDot]
    [Wide.Latin1 "i"; Wide.CombiningDot]
  = Ok true.
Proof. split; [simpl; lia|reflexivity]. Qed.

(** ** The filter engine *)

Lemma filter_loop_spec query_lower history : ∀ filtered,
  HistoryLoader.filter_loop query_lower history filtered
  = Ok (filtered ++
        List.filter
          (λ cmd,
             succeeds (HistoryLoader._fuzzy_match (Py.lower cmd) query_lower))
          history).
Proof.
  induction history as [|cmd history IH]; intros filtered; simpl.
  - by rewrite app_nil_r.
  - destruct (fuzzy_match_spec (Py.lower cmd) query_lower) as (b & -> & _).
    simpl. rewrite IH. destruct b; [|done]. by rewrite <- app_assoc.
Qed.

Lemma filter_all {A} (l : list A) : List.filter (λ _, true) l = l.
Proof. induction l as [|x l IH]; simpl; [done|]. by rewrite IH. Qed.

Lemma filter_history_eq history query :
  HistoryLoader.filter_history history query
  = Ok (List.filter (λ cmd, succeeds (HistoryLoader.matches cmd query))
          history).
Proof.
  unfold HistoryLoader.filter_history, HistoryLoader.matches.
  destruct query as [|c query].
  - simpl. by rewrite filter_all.
  - change (negb (Py.str_truthy (String c query))) with false. cbv iota.
    by rewrite filter_loop_spec.
Qed.

(** C4.  [filter_history] returns the commands of [history] on which the
    matcher succeeds, in the order they have in [history]; for the empty
    query it returns [history] itself. *)
Theorem filter_history_spec history query :
  HistoryLoader.filter_history history query
  = Ok (List.filter (λ cmd, succeeds (HistoryLoader.matches cmd query))
          history)
  ∧ HistoryLoader.filter_history history EmptyString = Ok history.
Proof. split; [apply filter_history_eq|done]. Qed.

(** The result is an order-preserving part of the history, and holds the
    commands of which the lower-cased query is a subsequence. *)
Lemma filter_history_sublist history query :
  ∃ filtered, HistoryLoader.filter_history history query = Ok filtered ∧
    filtered `sublist_of` history ∧
    ∀ cmd, cmd ∈ filtered ↔
           cmd ∈ history ∧ subsequence (Py.lower query) (Py.lower cmd).
Proof.
  eexists. split; [apply filter_history_eq|].
  split.
  - induction history as [|cmd history IH]; simpl; [done|].
    destruct (succeeds _); by constructor.
  - intros cmd. rewrite !list_elem_of_In, filter_In.
    destruct (matches_total cmd query) as (b & -> & <-).
    simpl. done.
Qed.

(** ** Loading the history *)

(** After the deduplication loop has run over [reverse commands], [seen]
    holds what [deduplicated] holds, and [deduplicated], read backwards,
    is [commands] without its empty strings, each command kept at its last
    occurrence. *)
Lemma dedup_loop_spec (commands : list string) :
  let '(seen, deduplicated) :=
    foldl HistoryLoader.dedup_step (∅, []) (reverse commands) in
  (∀ cmd, cmd ∈ seen ↔ cmd ∈ deduplicated) ∧
  reverse deduplicated
  = remove_dups (filter (λ cmd, cmd ≠ EmptyString) commands).
Proof.
  induction commands as [|cmd commands IH].
  - simpl. split; [|done]. intros cmd.
    rewrite elem_of_empty, elem_of_nil. tauto.
  - rewrite reverse_cons, foldl_snoc.
    destruct (foldl _ _ _) as [seen deduplicated]. destruct IH as [Hseen IH].
    unfold HistoryLoader.dedup_step.
    destruct cmd as [|c cmd]; simpl.
    { split; [done|]. by rewrite filter_cons_False by (by intros []). }
    case_bool_decide as Hin; simpl.
    + split.
      { intros cmd0.
        rewrite elem_of_union, elem_of_singleton, elem_of_app,
          list_elem_of_singleton, Hseen. tauto. }
      rewrite reverse_snoc, IH.
      destruct (decide_rel _ _ _) as [Hel|_]; [|done].
      exfalso. apply Hin, Hseen, elem_of_reverse.
      rewrite IH. by apply elem_of_remove_dups.
    + split; [done|]. rewrite IH.
      destruct (decide_rel _ _ _) as [_|Hnel]; [done|].
      exfalso. apply Hnel, elem_of_remove_dups. rewrite <- IH.
      by apply elem_of_reverse, Hseen.
Qed.

Lemma load_history_eq parsed :
  HistoryLoader.load_history parsed
  = remove_dups (filter (λ cmd, cmd ≠ EmptyString) (concat parsed)).
Proof.
  unfold HistoryLoader.load_history.
  pose proof (dedup_loop_spec (concat parsed)) as H.
  destruct (foldl _ _ _) as [seen deduplicated]. by destruct H.
Qed.

(** The returned list has no duplicates and holds exactly the non-empty
    commands of the sources. *)
Lemma load_history_NoDup parsed :
  NoDup (HistoryLoader.load_history parsed) ∧
  ∀ cmd, cmd ∈ HistoryLoader.load_history parsed ↔
         cmd ≠ EmptyString ∧ ∃ source, source ∈ parsed ∧ cmd ∈ source.
Proof.
  rewrite load_history_eq. split; [apply NoDup_remove_dups|].
  intros cmd. rewrite elem_of_remove_dups, list_elem_of_filter.
  setoid_rewrite list_elem_of_In. rewrite in_concat. naive_solver.
Qed.

(** The most recent command, the last one of the last source, comes last. *)
Lemma load_history_most_recent_last parsed source cmd :
  cmd ≠ EmptyString →
  last (HistoryLoader.load_history (parsed ++ [source ++ [cmd]])) = Some cmd.
Proof.
  intros Hne. rewrite load_history_eq.
  rewrite concat_app. simpl. rewrite app_nil_r, app_assoc.
  rewrite filter_app. rewrite filter_cons_True, filter_nil by done.
  generalize (filter (λ c, c ≠ EmptyString) (concat parsed ++ source)).
  intros l. induction l as [|x l IH]; simpl; [done|].
  case_decide as Hin; [done|].
  rewrite last_cons, IH. done.
Qed.

(** C2.  [load_history] on one source in which [ls] is repeated and
    [git status] is the most recent command: every command is kept once, at
    its most recent occurrence, but the list runs from the oldest command
    to the most recent one, not most-recent-first. *)
Theorem load_history_oldest_first :
  HistoryLoader.load_history [["ls"; "cd /tmp"; "ls"; "git status"]]
  = ["cd /tmp"; "ls"; "git status"].
Proof. vm_compute. reflexivity. Qed.

(** ** The selection state *)

Lemma update_filter_spec self :
  ∃ filtered,
    (if Py.str_truthy (query self)
     then HistoryLoader.filter_history (HistUI.history self) (query self)
     else Ok (HistUI.history self)) = Ok filtered ∧
    HistUI._update_filter self
    = Ok (HistUI.mk (query self)
            (if selected_idx self >=? Py.len filtered
             then Z.max 0 (Py.len filtered - 1) else selected_idx self)
            (max_display self) (history self) filtered).
Proof.
  unfold HistUI._update_filter.
  destruct (Py.str_truthy (query self)).
  - rewrite filter_history_eq. eexists. split; [done|].
    simpl. by destruct (_ >=? _).
  - eexists. split; [done|]. simpl. by destruct (_ >=? _).
Qed.

Lemma update_filter_invariant self self' :
  0 ≤ selected_idx self →
  HistUI._update_filter self = Ok self' →
  index_invariant self'.
Proof.
  intros Hidx. destruct (update_filter_spec self) as (filtered & _ & ->).
  intros [= <-]. unfold index_invariant. simpl.
  pose proof (len_nonneg filtered). pose proof (len_zero filtered).
  destruct (Z.geb_spec (selected_idx self) (Py.len filtered));
    (split; intros Hf;
     [assert (Py.len filtered ≠ 0) by tauto
     |assert (Py.len filtered = 0) by tauto]; lia).
Qed.

Lemma index_invariant_nonneg self : index_invariant self → 0 ≤ selected_idx self.
Proof.
  intros [Hne He]. destruct (filtered_history self) as [|cmd l].
  - by rewrite He.
  - apply Hne. done.
Qed.

Lemma move_up_invariant self :
  index_invariant self → index_invariant (HistUI._move_selection_up self).
Proof.
  intros [Hne He]. unfold HistUI._move_selection_up.
  destruct (Z.gtb_spec (selected_idx self) 0); [|done].
  split; simpl; intros H'; [specialize (Hne H')|specialize (He H')]; lia.
Qed.

Lemma move_down_invariant self :
  index_invariant self → index_invariant (HistUI._move_selection_down self).
Proof.
  intros [Hne He]. unfold HistUI._move_selection_down.
  destruct (Z.ltb_spec (selected_idx self)
              (Py.len (filtered_history self) - 1)) as [Hlt|]; [|done].
  split; simpl; intros H'; [specialize (Hne H'); lia|].
  rewrite H' in Hlt. unfold Py.len in Hlt. simpl in Hlt.
  specialize (He H'). lia.
Qed.

(** ** One iteration of the loop, by the character read *)

Lemma printable_not_control c :
  Py.isprintable_char c = true →
  c ≠ "003"%char ∧ c ≠ "027"%char ∧ c ≠ "013"%char ∧ c ≠ "010"%char ∧
  c ≠ "127"%char.
Proof.
  destruct c as [[] [] [] [] [] [] [] []]; try discriminate; done.
Qed.

(** Run the reads of an iteration on an input that is known. *)
Ltac read_stdin H :=
  unfold HistUI.loop_body, IO.bind, IO.stdin_read1; rewrite H.

Lemma loop_body_interrupt self w rest :
  stdin w = "003"%char :: rest →
  HistUI.loop_body self w = (Raise KeyboardInterrupt, set_stdin rest w).
Proof.
  intros H. by read_stdin H.
Qed.

Lemma loop_body_up self w rest :
  stdin w = keystroke MoveUp ++ rest →
  HistUI.loop_body self w
  = (Ok (Continue, HistUI._move_selection_up self), set_stdin rest w).
Proof.
  intros H. by read_stdin H.
Qed.

Lemma loop_body_down self w rest :
  stdin w = keystroke MoveDown ++ rest →
  HistUI.loop_body self w
  = (Ok (Continue, HistUI._move_selection_down self), set_stdin rest w).
Proof.
  intros H. by read_stdin H.
Qed.

Lemma loop_body_backspace self w rest :
  stdin w = keystroke Backspace ++ rest →
  HistUI.loop_body self w
  = if Py.str_truthy (query self)
    then match HistUI._update_filter
                 (HistUI.set_query (Py.str_slice_to (query self) (-1)) self)
         with
         | Ok self' => (Ok (Continue, self'), set_stdin rest w)
         | Raise e => (Raise e, set_stdin rest w)
         end
    else (Ok (Continue, self), set_stdin rest w).
Proof.
  intros H. read_stdin H.
  simpl. by destruct (Py.str_truthy (query self)).
Qed.

Lemma loop_body_append self w c rest :
  Py.isprintable_char c = true →
  stdin w = keystroke (Append c) ++ rest →
  HistUI.loop_body self w
  = match HistUI._update_filter
            (HistUI.set_query (query self +:+ String c EmptyString) self)
    with
    | Ok self' => (Ok (Continue, self'), set_stdin rest w)
    | Raise e => (Raise e, set_stdin rest w)
    end.
Proof.
  intros Hc H. read_stdin H.
  revert Hc. destruct c as [[] [] [] [] [] [] [] []]; try discriminate; done.
Qed.

(** Whatever is read, an iteration that stays in the loop leaves the state
    alone, moves the selection, or edits the query and refilters. *)
Lemma loop_body_continue self w self' w' :
  HistUI.loop_body self w = (Ok (Continue, self'), w') →
  self' = self ∨ self' = HistUI._move_selection_up self ∨
  self' = HistUI._move_selection_down self ∨
  ∃ q, HistUI._update_filter (HistUI.set_query q self) = Ok self'.
Proof.
  unfold HistUI.loop_body, IO.bind, IO.stdin_read1, IO.ret, IO.raise.
  intros H. repeat case_match; simplify_eq; eauto.
Qed.

Lemma run_setup_spec w :
  HistUI.run_setup HistUI.__init__ w
  = match HistoryLoader.load_history (parsed_files w) with
    | [] => (Raise (SystemExit 1), w)
    | cmd :: cmds =>
        (Ok (HistUI.mk EmptyString 0 15 (cmd :: cmds) (take 15 (cmd :: cmds))),
         w)
    end.
Proof.
  unfold HistUI.run_setup. simpl.
  by destruct (HistoryLoader.load_history (parsed_files w)).
Qed.

Lemma start_invariant w self w' :
  HistUI.run_setup HistUI.__init__ w = (Ok self, w') → index_invariant self.
Proof.
  rewrite run_setup_spec.
  destruct (HistoryLoader.load_history (parsed_files w)) as [|cmd cmds];
    [done|].
  intros [= <- _]. split; simpl; [intros _|done].
  unfold Py.len. simpl. lia.
Qed.

Lemma reachable_invariant self : reachable self → index_invariant self.
Proof.
  induction 1 as [w self w' Hstart|self w self' w' _ IH Hstep].
  - by eapply start_invariant.
  - apply loop_body_continue in Hstep as [->|[->|[->|[q Hq]]]].
    + done.
    + by apply move_up_invariant.
    + by apply move_down_invariant.
    + eapply update_filter_invariant; [|done].
      simpl. by apply index_invariant_nonneg.
Qed.

(** C5.  From a reachable state, each of the events append printable
    character, backspace, move up and move down is consumed by one iteration
    that stays in the loop, and in the state it leaves the index is within
    [0, len(filtered)) when [filtered] is non-empty and is 0 when it is
    empty. *)
Theorem index_invariant_preserved self w ev rest :
  reachable self →
  printable_event ev →
  stdin w = keystroke ev ++ rest →
  ∃ self',
    HistUI.loop_body self w = (Ok (Continue, self'), set_stdin rest w) ∧
    (filtered_history self' ≠ [] →
       0 ≤ selected_idx self' < Py.len (filtered_history self')) ∧
    (filtered_history self' = [] → selected_idx self' = 0).
Proof.
  intros Hreach Hev Hin.
  assert (∃ self', HistUI.loop_body self w
                   = (Ok (Continue, self'), set_stdin rest w)) as [self' Hstep].
  { destruct ev as [c| | |].
    - rewrite (loop_body_append _ _ c rest) by done.
      destruct (update_filter_spec
                  (HistUI.set_query (query self +:+ String c EmptyString) self))
        as (? & _ & ->). eauto.
    - rewrite (loop_body_backspace _ _ rest) by done.
      destruct (Py.str_truthy (query self)); [|eauto].
      destruct (update_filter_spec
                  (HistUI.set_query (Py.str_slice_to (query self) (-1)) self))
        as (? & _ & ->). eauto.
    - rewrite (loop_body_up _ _ rest) by done. eauto.
    - rewrite (loop_body_down _ _ rest) by done. eauto. }
  exists self'. split; [done|].
  apply (reachable_invariant self'). by eapply reachable_step.
Qed.

Lemma index_invariant_preserved_witness :
  ∃ self',
    HistUI.loop_body sample_start (sample_world [sample_history] "z")
    = (Ok (Continue, self'),
       set_stdin [] (sample_world [sample_history] "z")) ∧
    (filtered_history self' ≠ [] →
       0 ≤ selected_idx self' < Py.len (filtered_history self')) ∧
    (filtered_history self' = [] → selected_idx self' = 0).
Proof.
  apply (index_invariant_preserved sample_start
           (sample_world [sample_history] "z") (Append "z") []).
  - apply (reachable_start (sample_world [sample_history] "z") _
             (sample_world [sample_history] "z")).
    vm_compute. reflexivity.
  - reflexivity.
  - reflexivity.
Defined.

(** The state in which the session starts. *)
Lemma session_start w self w' :
  HistUI.run_setup HistUI.__init__ w = (Ok self, w') →
  query self = EmptyString ∧ selected_idx self = 0 ∧
  history self = HistoryLoader.load_history (parsed_files w) ∧
  filtered_history self = take 15 (history self).
Proof.
  rewrite run_setup_spec.
  destruct (HistoryLoader.load_history (parsed_files w)); [done|].
  by intros [= <- _].
Qed.

(** C1.  With sixteen commands loaded, the session starts with the empty
    query and index 0, but [filtered] holds the first fifteen commands
    only, not the full history. *)
Theorem session_start_truncated :
  ∃ self,
    HistUI.run_setup HistUI.__init__ (sample_world [sixteen] EmptyString)
    = (Ok self, sample_world [sixteen] EmptyString) ∧
    query self = EmptyString ∧ selected_idx self = 0 ∧
    history self = sixteen ∧
    filtered_history self = take 15 sixteen ∧
    length (filtered_history self) = 15%nat ∧
    filtered_history self ≠ history self.
Proof. eexists. split; [vm_compute; reflexivity|]. done. Qed.

(** Typing a character and erasing it again, which leaves the query empty
    as at the start, gives the full history. *)
Example retyped_start_full :
  ∃ self w',
    continues 2 (HistUI.mk EmptyString 0 15 sixteen (take 15 sixteen))
      (sample_world [sixteen] ("c" +:+ backspace)) = Some (self, w') ∧
    query self = EmptyString ∧ filtered_history self = sixteen.
Proof. do 2 eexists. split; [vm_compute; reflexivity|]. done. Qed.

Lemma move_down_idx self :
  selected_idx (HistUI._move_selection_down self)
  = if selected_idx self <? Py.len (filtered_history self) - 1
    then selected_idx self + 1 else selected_idx self.
Proof. unfold HistUI._move_selection_down. by destruct (_ <? _). Qed.

(** C6.  Move-down sets the index to [min(len(filtered)-1, index+1)] in
    every state whose index is at most [len(filtered)-1], which every
    reachable state with a non-empty [filtered] is; in every other state,
    as when [filtered] is empty and the index is 0, it leaves the index as
    it is. *)
Theorem move_down_spec self :
  selected_idx (HistUI._move_selection_down self)
  = if selected_idx self <=? Py.len (filtered_history self) - 1
    then Z.min (Py.len (filtered_history self) - 1) (selected_idx self + 1)
    else selected_idx self.
Proof.
  rewrite move_down_idx.
  destruct (Z.ltb_spec (selected_idx self)
              (Py.len (filtered_history self) - 1));
    destruct (Z.leb_spec (selected_idx self)
                (Py.len (filtered_history self) - 1)); lia.
Qed.

Lemma move_down_empty_counterexample :
  reachable no_match ∧
  filtered_history no_match = [] ∧
  selected_idx (HistUI._move_selection_down no_match)
  ≠ Z.min (Py.len (filtered_history no_match) - 1)
      (selected_idx no_match + 1).
Proof.
  split; [|done].
  apply (reachable_step sample_start (sample_world [sample_history] "z") _
           (set_stdin [] (sample_world [sample_history] "z"))).
  - apply (reachable_start (sample_world [sample_history] "z") _
             (sample_world [sample_history] "z")).
    vm_compute. reflexivity.
  - vm_compute. reflexivity.
Qed.

Lemma move_down_reachable self :
  reachable self →
  selected_idx (HistUI._move_selection_down self)
  = match filtered_history self with
    | [] => 0
    | _ :: _ =>
        Z.min (Py.len (filtered_history self) - 1) (selected_idx self + 1)
    end.
Proof.
  intros [Hne He]%reachable_invariant. rewrite move_down_idx.
  destruct (filtered_history self) as [|cmd l] eqn:E.
  - rewrite He by done. done.
  - specialize (Hne ltac:(done)).
    destruct (Z.ltb_spec (selected_idx self) (Py.len (cmd :: l) - 1)); lia.
Qed.

(** C10.  The iteration that consumes a move-up or a move-down event stays
    in the loop and changes nothing but the index: the query, the filtered
    list, the history and the display cap are as before. *)
Theorem move_events_frame self w ev rest :
  ev = MoveUp ∨ ev = MoveDown →
  stdin w = keystroke ev ++ rest →
  ∃ self',
    HistUI.loop_body self w = (Ok (Continue, self'), set_stdin rest w) ∧
    self' = match ev with
            | MoveUp => HistUI._move_selection_up self
            | _ => HistUI._move_selection_down self
            end ∧
    query self' = query self ∧
    filtered_history self' = filtered_history self ∧
    history self' = history self ∧
    max_display self' = max_display self.
Proof.
  intros [-> | ->] Hin; eexists; (split; [|split; [reflexivity|]]).
  - by apply loop_body_up.
  - unfold HistUI._move_selection_up. by destruct (_ >? _).
  - by apply loop_body_down.
  - unfold HistUI._move_selection_down. by destruct (_ <? _).
Qed.

Lemma move_events_frame_witness :
  ∃ self',
    HistUI.loop_body sample_start
      (sample_world [sample_history] (esc +:+ "[B"))
    = (Ok (Continue, self'),
       set_stdin [] (sample_world [sample_history] (esc +:+ "[B"))) ∧
    self' = HistUI._move_selection_down sample_start ∧
    query self' = query sample_start ∧
    filtered_history self' = filtered_history sample_start ∧
    history self' = history sample_start ∧
    max_display self' = max_display sample_start.
Proof.
  apply (move_events_frame sample_start
           (sample_world [sample_history] (esc +:+ "[B")) MoveDown []).
  - right. reflexivity.
  - reflexivity.
Defined.

(** ** Running the selected command *)

Lemma log_command_total command w :
  ∃ w', CommandRunner._log_command command w = (Ok (), w') ∧
        stdin w' = stdin w ∧ shell_runs w' = shell_runs w ∧
        shell w' = shell w ∧
        (log_io w = LogOk →
         log_file w' = log_file w +:+ CommandRunner.log_entry (now w) command).
Proof.
  unfold CommandRunner._log_command, IO.try_except_Exception,
    CommandRunner.log_write, IO.ret.
  destruct (log_io w); simpl; eexists; done.
Qed.

Lemma execute_total command log w :
  ∃ success w', CommandRunner.execute command log w = (Ok success, w') ∧
    stdin w' = stdin w ∧ shell_runs w' = shell_runs w ++ [command] ∧
    (log = true → log_io w = LogOk →
     log_file w' = log_file w +:+ CommandRunner.log_entry (now w) command) ∧
    (log = false → log_file w' = log_file w).
Proof.
  unfold CommandRunner.execute, IO.bind.
  assert (∃ w1, (if log then CommandRunner._log_command command
                 else IO.ret ()) w
                = (Ok (), w1) ∧ stdin w1 = stdin w ∧
                  shell_runs w1 = shell_runs w ∧ shell w1 = shell w ∧
                  (log = true → log_io w = LogOk →
                   log_file w1
                   = log_file w +:+ CommandRunner.log_entry (now w) command) ∧
                  (log = false → log_file w1 = log_file w))
    as (w1 & -> & Hin & Hruns & Hsh & Hlog & Hnolog).
  { destruct log.
    - destruct (log_command_total command w) as (w1 & -> & ? & ? & ? & ?).
      exists w1. naive_solver.
    - exists w. unfold IO.ret. naive_solver. }
  unfold IO.try_except_Exception, CommandRunner.subprocess_run, IO.ret.
  destruct (shell w1 command); simpl; do 2 eexists;
    (split; [done|]); simpl; rewrite ?Hruns; done.
Qed.

Lemma untouched_refl w : untouched w w.
Proof. done. Qed.

Lemma untouched_trans w1 w2 w3 :
  untouched w1 w2 → untouched w2 w3 → untouched w1 w3.
Proof. unfold untouched. intuition congruence. Qed.

Lemma untouched_set_stdin i w : untouched w (set_stdin i w).
Proof. done. Qed.

Lemma execute_untouched command log w r w' :
  CommandRunner.execute command log w = (r, w') → untouched w w'.
Proof.
  unfold CommandRunner.execute, IO.bind, CommandRunner._log_command,
    IO.try_except_Exception, CommandRunner.log_write,
    CommandRunner.subprocess_run, IO.ret.
  destruct log; [destruct (log_io w)|]; simpl;
    destruct (shell w command); simpl; intros [= <- <-]; done.
Qed.

(** The command is announced first: when the console raises for the
    announcement nothing is run, otherwise the command is handed to the
    runner, which never raises. *)
Lemma execute_command_spec command w :
  match console w (HistUI.executing_line command) with
  | Some e => HistUI._execute_command command w = (Raise e, w)
  | None =>
      ∃ w', HistUI._execute_command command w = (Ok (), w') ∧
            stdin w' = stdin w ∧
            shell_runs w' = shell_runs w ++ [command] ∧ untouched w w'
  end.
Proof.
  unfold HistUI._execute_command, IO.bind, IO.console_print.
  destruct (console w _) as [e|]; [done|].
  destruct (execute_total command true w) as (b & w' & Hexec & ? & ? & _).
  rewrite Hexec. exists w'. split; [done|]. split; [done|]. split; [done|].
  by eapply execute_untouched.
Qed.

Lemma in_range_dec self :
  Py.list_truthy (filtered_history self)
  && ((0 <=? selected_idx self)
      && (selected_idx self <? Py.len (filtered_history self))) = true
  ↔ index_in_range self.
Proof.
  unfold index_in_range.
  rewrite !andb_true_iff, Z.leb_le, Z.ltb_lt.
  destruct (filtered_history self); simpl; intuition congruence.
Qed.

(** The index is in range when the test of the confirm branch holds. *)
Lemma confirm_lookup self :
  index_in_range self →
  ∃ cmd,
    filtered_history self !! Z.to_nat (selected_idx self) = Some cmd ∧
    Py.getitem (filtered_history self) (selected_idx self) = Ok cmd.
Proof.
  intros [_ [H0 Hlt]].
  destruct (lookup_lt_is_Some_2 (filtered_history self)
              (Z.to_nat (selected_idx self))) as [cmd Hcmd].
  { unfold Py.len in Hlt. lia. }
  exists cmd. split; [done|].
  rewrite <- (Z2Nat.id (selected_idx self)) at 1 by done.
  by rewrite getitem_nat, Hcmd.
Qed.

Lemma loop_body_enter self w c rest :
  c = "013"%char ∨ c = "010"%char →
  stdin w = c :: rest →
  HistUI.loop_body self w
  = if Py.list_truthy (filtered_history self)
       && ((0 <=? selected_idx self)
           && (selected_idx self <? Py.len (filtered_history self)))
    then match Py.getitem (filtered_history self) (selected_idx self) with
         | Ok cmd =>
             match HistUI._execute_command cmd (set_stdin rest w) with
             | (Ok _, w') => (Ok (Break, self), w')
             | (Raise e, w') => (Raise e, w')
             end
         | Raise e => (Raise e, set_stdin rest w)
         end
    else (Ok (Continue, self), set_stdin rest w).
Proof.
  intros Hc Hin. read_stdin Hin.
  destruct Hc as [-> | ->]; simpl; by repeat case_match.
Qed.

Lemma continues_reachable n : ∀ self w self' w',
  reachable self → continues n self w = Some (self', w') → reachable self'.
Proof.
  induction n as [|n IH]; intros self w self' w' Hreach; simpl.
  - by intros [= <- _].
  - destruct (HistUI.loop_body self w) as [[[[] self1]|e] w1] eqn:Hbody;
      try done.
    apply IH. by eapply reachable_step.
Qed.

(** The confirm event, by the state and by what the console does with the
    announcement of the command. *)
Lemma confirm_outcome self w c rest :
  c = "013"%char ∨ c = "010"%char →
  stdin w = c :: rest →
  (index_in_range self →
   ∃ cmd,
     filtered_history self !! Z.to_nat (selected_idx self) = Some cmd ∧
     match console w (HistUI.executing_line cmd) with
     | None =>
         ∃ w', HistUI.loop_body self w = (Ok (Break, self), w') ∧
               shell_runs w' = shell_runs w ++ [cmd] ∧ stdin w' = rest ∧
               untouched w w'
     | Some e => HistUI.loop_body self w = (Raise e, set_stdin rest w)
     end) ∧
  (¬ index_in_range self →
   HistUI.loop_body self w = (Ok (Continue, self), set_stdin rest w)).
Proof.
  intros Hc Hin. rewrite (loop_body_enter _ _ c rest) by done. split.
  - intros Hrange. destruct (confirm_lookup self Hrange) as (cmd & Hcmd & ->).
    apply in_range_dec in Hrange. rewrite Hrange.
    exists cmd. split; [done|].
    pose proof (execute_command_spec cmd (set_stdin rest w)) as Hexec.
    change (console (set_stdin rest w)) with (console w) in Hexec.
    destruct (console w (HistUI.executing_line cmd)) as [e|].
    + by rewrite Hexec.
    + destruct Hexec as (w' & -> & Hstdin & Hruns & Hsame).
      exists w'. done.
  - intros Hrange.
    destruct (Py.list_truthy _ && _) eqn:E; [by apply in_range_dec in E|].
    done.
Qed.

(** C7.  With the selection on the sixteenth command [echo [/dev/null]],
    a state a session reaches, the index is in range, and yet the confirm
    event does not run the command: the console raises [MarkupError] for the
    line that announces it, the exception leaves the loop, and the
    environment has only lost the character read.  The session that is
    taken there by the keys and then confirmed ends with [MarkupError],
    no command run (with [>] and [#] for the two glyphs of the display). *)
Theorem confirm_markup_error :
  reachable hidden_markup ∧ index_in_range hidden_markup ∧
  filtered_history hidden_markup !! Z.to_nat (selected_idx hidden_markup)
  = Some "echo [/dev/null]" ∧
  HistUI.loop_body hidden_markup (markup_world enter)
  = (Raise MarkupError, set_stdin [] (markup_world enter)) ∧
  shell_runs (set_stdin [] (markup_world enter)) = [] ∧
  option_map (λ end_, (fst end_, shell_runs (snd end_)))
    (HistUI.main ">" "#" 18 (markup_world (to_sixteenth +:+ enter)))
  = Some (Raise MarkupError, []).
Proof.
  split; [|split; [|split; [done|split; [done|split; [done|]]]]].
  - apply (continues_reachable 17
             (HistUI.mk EmptyString 0 15 markup_history (take 15 markup_history))
             (markup_world to_sixteenth) _ (markup_world EmptyString)).
    + apply (reachable_start (markup_world EmptyString) _
               (markup_world EmptyString)).
      vm_compute. reflexivity.
    + vm_compute. reflexivity.
  - split; [done|]. unfold Py.len. simpl. lia.
  - vm_compute. reflexivity.
Qed.

(** ** What an iteration can do *)

Lemma loop_body_eof self w :
  stdin w = [] →
  HistUI.loop_body self w
  = if hangup w then (Raise OSError, w)
    else match HistUI._update_filter
                 (HistUI.set_query (query self +:+ EmptyString) self)
         with
         | Ok self' => (Ok (Continue, self'), w)
         | Raise e => (Raise e, w)
         end.
Proof. intros H. read_stdin H. by destruct (hangup w). Qed.

Lemma loop_body_escape self w tail :
  stdin w = "027"%char :: tail →
  (∃ self',
     HistUI.loop_body self w
     = (Ok (Continue, self'), set_stdin (drop 2 tail) w) ∧
     (self' = self ∨ self' = HistUI._move_selection_up self ∨
      self' = HistUI._move_selection_down self)) ∨
  (hangup w = true ∧
   HistUI.loop_body self w = (Raise OSError, set_stdin [] w)).
Proof.
  intros H. read_stdin H. simpl.
  destruct tail as [|a [|b tail]]; unfold set_stdin; simpl.
  - destruct (hangup w); [by right|]. left. eauto.
  - destruct (hangup w); [by right|]. left.
    destruct (HistUI.char_is _ _); eauto.
  - left. repeat destruct (HistUI.char_is _ _); eauto.
Qed.

Lemma loop_body_ignored self w c rest :
  Py.isprintable_char c = false →
  c ≠ "003"%char → c ≠ "027"%char → c ≠ "013"%char → c ≠ "010"%char →
  c ≠ "127"%char →
  stdin w = c :: rest →
  HistUI.loop_body self w = (Ok (Continue, self), set_stdin rest w).
Proof.
  intros Hp H1 H2 H3 H4 H5 Hin. read_stdin Hin.
  revert Hp H1 H2 H3 H4 H5.
  destruct c as [[] [] [] [] [] [] [] []]; try discriminate; done.
Qed.

(** What the handling of one character can do, whatever the input is. *)
Lemma loop_body_outcome self w r w' :
  HistUI.loop_body self w = (r, w') →
  untouched w w' ∧
  match r with
  | Ok (Continue, self') =>
      shell_runs w' = shell_runs w ∧ log_file w' = log_file w ∧
      (self' = self ∨ self' = HistUI._move_selection_up self ∨
       self' = HistUI._move_selection_down self ∨
       ∃ q, HistUI._update_filter (HistUI.set_query q self) = Ok self')
  | Ok (Break, self') =>
      self' = self ∧ index_in_range self ∧
      ∃ cmd, filtered_history self !! Z.to_nat (selected_idx self) = Some cmd ∧
             shell_runs w' = shell_runs w ++ [cmd]
  | Raise e => shell_runs w' = shell_runs w
  end.
Proof.
  assert (∀ q w1,
            untouched w w1 →
            shell_runs w1 = shell_runs w → log_file w1 = log_file w →
            match HistUI._update_filter (HistUI.set_query q self) with
            | Ok self' => (Ok (Continue, self'), w1)
            | Raise e => (Raise e, w1)
            end = (r, w') →
            untouched w w' ∧
            match r with
            | Ok (Continue, self') =>
                shell_runs w' = shell_runs w ∧ log_file w' = log_file w ∧
                (self' = self ∨ self' = HistUI._move_selection_up self ∨
                 self' = HistUI._move_selection_down self ∨
                 ∃ q, HistUI._update_filter (HistUI.set_query q self)
                      = Ok self')
            | Ok (Break, self') =>
                self' = self ∧ index_in_range self ∧
                ∃ cmd,
                  filtered_history self !! Z.to_nat (selected_idx self)
                  = Some cmd ∧
                  shell_runs w' = shell_runs w ++ [cmd]
            | Raise e => shell_runs w' = shell_runs w
            end) as Hedit.
  { intros q w1 ? ? ?.
    destruct (update_filter_spec (HistUI.set_query q self))
      as (? & _ & Hupd).
    rewrite Hupd. intros [= <- <-]. eauto 10. }
  destruct (stdin w) as [|c rest] eqn:Hin.
  { rewrite loop_body_eof by done.
    destruct (hangup w); [by intros [= <- <-]|]. by apply Hedit. }
  destruct (decide (c = "003"%char)) as [->|H1].
  { rewrite (loop_body_interrupt _ _ rest) by done. by intros [= <- <-]. }
  destruct (decide (c = "027"%char)) as [->|H2].
  { destruct (loop_body_escape self w rest Hin)
      as [(self' & -> & Hself)|(_ & ->)]; intros [= <- <-]; [|done].
    split; [done|]. simpl. intuition. }
  destruct (decide (c = "013"%char ∨ c = "010"%char)) as [Hc|Hc].
  { destruct (confirm_outcome self w c rest Hc Hin) as [Hyes Hno].
    destruct (Py.list_truthy (filtered_history self)
              && ((0 <=? selected_idx self)
                  && (selected_idx self <? Py.len (filtered_history self))))
      eqn:Hrange.
    - apply in_range_dec in Hrange.
      destruct (Hyes Hrange) as (cmd & Hcmd & Hcase).
      destruct (console w (HistUI.executing_line cmd)) as [e|].
      + rewrite Hcase. by intros [= <- <-].
      + destruct Hcase as (w1 & -> & Hruns & _ & Hsame).
        intros [= <- <-]. eauto 10.
    - rewrite Hno; [intros [= <- <-]; split; [done|]; simpl; eauto 10|].
      intros E%in_range_dec. congruence. }
  destruct (decide (c = "127"%char)) as [->|H5].
  { rewrite (loop_body_backspace _ _ rest) by done.
    destruct (Py.str_truthy (query self)).
    - by apply Hedit.
    - intros [= <- <-]. split; [done|]. simpl. eauto 10. }
  destruct (Py.isprintable_char c) eqn:Hp.
  - rewrite (loop_body_append _ _ c rest) by done. by apply Hedit.
  - rewrite (loop_body_ignored _ _ c rest) by tauto.
    intros [= <- <-]. split; [done|]. simpl. eauto 10.
Qed.

(** [_render_ui] changes nothing in the environment modelled. *)
Lemma render_ui_world arrow block self w r w' :
  HistUI._render_ui arrow block self w = (r, w') → w' = w.
Proof.
  unfold HistUI._render_ui, IO.bind, IO.console_print.
  destruct (HistUI._render_ui_lines arrow self); [|by intros [= _ <-]].
  destruct (console w _); [by intros [= _ <-]|].
  destruct (console w _); by intros [= _ <-].
Qed.

Lemma iteration_outcome arrow block self w r w' :
  HistUI.iteration arrow block self w = (r, w') →
  untouched w w' ∧
  match r with
  | Ok (Continue, self') =>
      shell_runs w' = shell_runs w ∧ log_file w' = log_file w ∧
      HistUI.loop_body self w = (r, w')
  | Ok (Break, self') =>
      self' = self ∧ index_in_range self ∧
      ∃ cmd, filtered_history self !! Z.to_nat (selected_idx self) = Some cmd ∧
             shell_runs w' = shell_runs w ++ [cmd]
  | Raise e => shell_runs w' = shell_runs w
  end.
Proof.
  unfold HistUI.iteration, IO.bind.
  destruct (HistUI._render_ui arrow block self w) as [[[]|e] w1] eqn:Hrender;
    apply render_ui_world in Hrender as ->; [|by intros [= <- <-]].
  intros Hbody. pose proof Hbody as Hout.
  apply loop_body_outcome in Hout as [Hsame Hout].
  split; [done|]. destruct r as [[[] self']|e]; [|done..].
  destruct Hout as (? & ? & _). done.
Qed.

(** ** The session *)

Lemma iterates_while_true arrow block n : ∀ self w self' w' fuel,
  iterates arrow block n self w = Some (self', w') →
  HistUI.while_true arrow block (n + fuel) self w
  = HistUI.while_true arrow block fuel self' w'.
Proof.
  induction n as [|n IH]; intros self w self' w' fuel; simpl.
  - by intros [= -> ->].
  - destruct (HistUI.iteration arrow block self w) as [[[[] self1]|e] w1];
      try done.
    apply IH.
Qed.

Lemma iterates_untouched arrow block n : ∀ self w self' w',
  iterates arrow block n self w = Some (self', w') → untouched w w'.
Proof.
  induction n as [|n IH]; intros self w self' w'; simpl.
  - by intros [= _ <-].
  - destruct (HistUI.iteration arrow block self w) as [[[[] self1]|e] w1]
      eqn:Hiter; try done.
    intros Hrest. apply iteration_outcome in Hiter as [Hsame _].
    eapply untouched_trans; [exact Hsame|]. by eapply IH.
Qed.

(** C9.  When [load_history] returns no command, the process exits with
    status 1 without entering the loop.  When the history is not empty,
    standard input is a terminal that stays, and the loop, after any number
    of iterations that stay in it, has drawn the display and reads the
    interrupt character, the process exits with status 0, the terminal
    settings restored. *)
Theorem exit_status arrow block :
  (∀ w fuel,
     HistoryLoader.load_history (parsed_files w) = [] →
     HistUI.main arrow block fuel w = Some (Raise (SystemExit 1), w)) ∧
  (∀ w self n self' w' rest fuel,
     HistUI.run_setup HistUI.__init__ w = (Ok self, w) →
     isatty w = true → hangup w = false →
     iterates arrow block n self (set_tty_raw true w) = Some (self', w') →
     HistUI._render_ui arrow block self' w' = (Ok (), w') →
     stdin w' = "003"%char :: rest →
     (n < fuel)%nat →
     HistUI.main arrow block fuel w
     = Some (Raise (SystemExit 0),
             set_tty_raw (tty_raw w) (set_stdin rest w'))).
Proof.
  split.
  - intros w fuel Hload. unfold HistUI.main, HistUI.run.
    by rewrite run_setup_spec, Hload.
  - intros w self n self' w' rest fuel Hsetup Htty Hhang Hiter Hrender Hin
      Hfuel.
    unfold HistUI.main, HistUI.run. rewrite Hsetup.
    unfold HistUI._interactive_loop, IO.tcgetattr, IO.setraw, IO.tty_lost.
    do 2 (rewrite Htty, Hhang; cbn [negb orb andb]; cbv beta iota zeta).
    replace fuel with (n + S (fuel - S n))%nat by lia.
    rewrite (iterates_while_true _ _ _ _ _ _ _ _ Hiter).
    cbn [HistUI.while_true]. unfold HistUI.iteration, IO.bind.
    rewrite Hrender, (loop_body_interrupt _ _ rest) by done.
    apply iterates_untouched in Hiter as (_ & _ & _ & Htty' & Hhang').
    unfold IO.tcsetattr, IO.tty_lost.
    change (isatty (set_stdin rest w')) with (isatty w').
    change (hangup (set_stdin rest w')) with (hangup w').
    rewrite Htty', Hhang'.
    change (isatty (set_tty_raw true w)) with (isatty w).
    change (hangup (set_tty_raw true w)) with (hangup w).
    by rewrite Htty, Hhang.
Qed.

Lemma exit_status_witness :
  HistUI.main ">" "#" 0 (sample_world [[]] ctrl_c)
  = Some (Raise (SystemExit 1), sample_world [[]] ctrl_c) ∧
  HistUI.main ">" "#" 3
    (sample_world [sample_history] ("s" +:+ esc +:+ "[B" +:+ ctrl_c))
  = Some (Raise (SystemExit 0),
          set_tty_raw false
            (set_stdin []
               (set_tty_raw true (sample_world [sample_history] ctrl_c)))).
Proof.
  split.
  - apply (proj1 (exit_status ">" "#")). vm_compute. reflexivity.
  - apply (proj2 (exit_status ">" "#")
             (sample_world [sample_history] ("s" +:+ esc +:+ "[B" +:+ ctrl_c))
             sample_start 2%nat
             (HistUI.mk "s" 1 15 sample_history
                ["ls -la"; "git status"; "python script.py"])
             (set_tty_raw true (sample_world [sample_history] ctrl_c)) []).
    + vm_compute. reflexivity.
    + reflexivity.
    + reflexivity.
    + vm_compute. reflexivity.
    + vm_compute. reflexivity.
    + reflexivity.
    + lia.
Defined.

(** ** The execution log *)












(** * Further properties of the code *)

(** ** Strings *)

Lemma lower_char_idempotent c :
  Py.lower_char (Py.lower_char c) = Py.lower_char c.
Proof. by destruct c as [[] [] [] [] [] [] [] []]. Qed.

Lemma lower_idempotent s : Py.lower (Py.lower s) = Py.lower s.
Proof.
  induction s as [|c s IH]; simpl; [done|].
  by rewrite lower_char_idempotent, IH.
Qed.

Lemma filter_sublist_mono {A} (P Q : A → bool) (l : list A) :
  (∀ x, P x = true → Q x = true) →
  List.filter P l `sublist_of` List.filter Q l.
Proof.
  intros HPQ. induction l as [|x l IH]; simpl; [done|].
  destruct (P x) eqn:HP.
  - rewrite (HPQ x HP). by apply sublist_skip.
  - destruct (Q x); [by apply sublist_cons|done].
Qed.

Lemma filter_filter_same {A} (P : A → bool) (l : list A) :
  List.filter P (List.filter P l) = List.filter P l.
Proof.
  induction l as [|x l IH]; simpl; [done|].
  destruct (P x) eqn:HP; simpl; [|done]. by rewrite HP, IH.
Qed.

(** ** The matcher and the filter *)

(** X1.  Every string matches itself, and lower-casing the candidate or
    the pattern beforehand does not change the outcome. *)
Theorem matches_reflexive_caseless candidate pattern :
  HistoryLoader.matches candidate candidate = Ok true ∧
  HistoryLoader.matches (Py.lower candidate) pattern
  = HistoryLoader.matches candidate pattern ∧
  HistoryLoader.matches candidate (Py.lower pattern)
  = HistoryLoader.matches candidate pattern.
Proof.
  split.
  - destruct (matches_total candidate candidate) as (b & -> & Hiff).
    f_equal. apply Hiff. unfold subsequence. reflexivity.
  - unfold HistoryLoader.matches. by rewrite !lower_idempotent.
Qed.




(** X3.  Filtering what a query kept by the same query changes nothing. *)
Theorem filter_history_idempotent history query :
  ∃ kept,
    HistoryLoader.filter_history history query = Ok kept ∧
    HistoryLoader.filter_history kept query = Ok kept.
Proof.
  eexists. split; [apply filter_history_eq|].
  by rewrite filter_history_eq, filter_filter_same.
Qed.

(** ** Loading *)

Lemma nodup_nonempty_fixed (l : list string) :
  NoDup l → EmptyString ∉ l →
  remove_dups (filter (λ cmd, cmd ≠ EmptyString) l) = l.
Proof.
  induction 1 as [|x l Hx Hnd IH]; [done|].
  intros [Hne Hl]%not_elem_of_cons.
  rewrite filter_cons_True by done. simpl.
  rewrite IH by done.
  destruct (decide_rel _ _ _) as [Hin|_]; [|done].
  by apply list_elem_of_filter in Hin as [_ Hin].
Qed.

(** X4.  [load_history] returns the commands of the sources, read in
    order, without the empty strings and with every command kept only at
    its last occurrence; the list has no duplicates, and loading it again
    gives the same list. *)
Theorem load_history_characterised parsed :
  HistoryLoader.load_history parsed
  = remove_dups (filter (λ cmd, cmd ≠ EmptyString) (concat parsed)) ∧
  NoDup (HistoryLoader.load_history parsed) ∧
  (EmptyString ∉ HistoryLoader.load_history parsed) ∧
  HistoryLoader.load_history [HistoryLoader.load_history parsed]
  = HistoryLoader.load_history parsed.
Proof.
  split; [apply load_history_eq|].
  destruct (load_history_NoDup parsed) as [Hnd Hin].
  split; [done|]. split; [intros H%Hin; by destruct H|].
  rewrite (load_history_eq [_]). simpl. rewrite app_nil_r.
  apply nodup_nonempty_fixed; [done|]. intros H%Hin. by destruct H.
Qed.

(** ** Parsing the history files *)

Lemma rstrip_nonspace c s :
  Py.isspace_char c = false →
  Py.rstrip (String c s) = String c (Py.rstrip s).
Proof. intros H. simpl. rewrite H. by destruct (Py.rstrip s). Qed.

Lemma rstrip_idempotent s : Py.rstrip (Py.rstrip s) = Py.rstrip s.
Proof.
  induction s as [|c s IH]; [done|]. simpl.
  destruct (Py.rstrip s) as [|c' r] eqn:E.
  - destruct (Py.isspace_char c) eqn:Hc; [done|]. simpl. by rewrite Hc.
  - change (Py.rstrip (String c (String c' r))) with
      (match Py.rstrip (String c' r) with
       | EmptyString =>
           if Py.isspace_char c then EmptyString else String c EmptyString
       | r' => String c r'
       end).
    by rewrite IH.
Qed.

Lemma lstrip_idempotent s : Py.lstrip (Py.lstrip s) = Py.lstrip s.
Proof.
  induction s as [|c s IH]; [done|]. simpl.
  destruct (Py.isspace_char c) eqn:Hc; [done|]. simpl. by rewrite Hc.
Qed.

Lemma lstrip_rstrip s : Py.lstrip (Py.rstrip s) = Py.rstrip (Py.lstrip s).
Proof.
  induction s as [|c s IH]; [done|].
  destruct (Py.isspace_char c) eqn:Hc.
  - simpl. rewrite Hc, <- IH.
    destruct (Py.rstrip s) as [|c' r]; [done|]. simpl. by rewrite Hc.
  - rewrite rstrip_nonspace by done. simpl. rewrite Hc.
    change (String c (Py.rstrip s) = Py.rstrip (String c s)).
    by rewrite rstrip_nonspace.
Qed.

Lemma strip_idempotent s : Py.strip (Py.strip s) = Py.strip s.
Proof.
  unfold Py.strip.
  by rewrite lstrip_rstrip, rstrip_idempotent, lstrip_idempotent.
Qed.

Lemma rstrip_app_space s ws :
  Forall (λ c, Py.isspace_char c = true) (Py.chars ws) →
  Py.rstrip (s +:+ ws) = Py.rstrip s.
Proof.
  intros Hws.
  assert (Py.rstrip ws = EmptyString) as Hempty.
  { induction ws as [|c ws IH]; [done|].
    apply Forall_cons in Hws as [Hc Hws]. simpl. by rewrite IH, Hc. }
  induction s as [|c s IH]; [done|].
  change (Py.rstrip (String c (s +:+ ws)) = Py.rstrip (String c s)).
  simpl. by rewrite IH.
Qed.

Lemma rstrip_app_fixed a c b :
  Py.rstrip (String c b) = String c b →
  Py.rstrip (a +:+ String c b) = a +:+ String c b.
Proof.
  intros Hb. induction a as [|x a IH]; [done|].
  change (Py.rstrip (String x (a +:+ String c b))
          = String x (a +:+ String c b)).
  simpl. rewrite IH. by destruct a.
Qed.

Lemma rstrip_app_nonspace a c rest :
  Py.isspace_char c = false →
  Py.rstrip (a +:+ String c rest) = a +:+ String c (Py.rstrip rest).
Proof.
  intros Hc. induction a as [|x a IH]; [by apply rstrip_nonspace|].
  change (Py.rstrip (String x (a +:+ String c rest))
          = String x (a +:+ String c (Py.rstrip rest))).
  simpl. rewrite IH. by destruct a.
Qed.

Lemma split_once_first sep a b :
  sep ∉ Py.chars a →
  Py.split_once sep (a +:+ String sep b) = [a; b].
Proof.
  induction a as [|x a IH]; intros Hsep.
  - simpl. by rewrite Ascii.eqb_refl.
  - apply not_elem_of_cons in Hsep as [Hx Hsep].
    change (Py.split_once sep (String x (a +:+ String sep b))
            = [String x a; b]).
    simpl. destruct (Ascii.eqb_spec x sep) as [->|_]; [done|].
    by rewrite IH.
Qed.

Lemma parse_loop_spec body : ∀ lines commands read_error,
  (HistoryLoader.parse_loop body commands lines read_error).1
  = foldl body commands
      (match read_error with Some k => take k lines | None => lines end).
Proof.
  induction lines as [|line lines IH]; intros commands [[|k]|]; simpl;
    done.
Qed.

Lemma foldl_appends body lines : ∀ commands,
  appends body →
  ∃ new, foldl body commands lines = commands ++ new.
Proof.
  intros commands Happ. revert commands.
  induction lines as [|line lines IH]; intros commands; simpl.
  - exists []. by rewrite app_nil_r.
  - destruct (Happ commands line) as [new Hnew].
    specialize (Hnew []). simpl in Hnew. rewrite Hnew.
    destruct (IH (commands ++ new)) as [new' ->].
    exists (new ++ new'). by rewrite app_assoc.
Qed.

Lemma bodies_append name :
  appends
    (if Py.contains ".zsh_history" name || String.eqb name ".zsh_history"
     then HistoryLoader.zsh_line
     else if Py.contains "fish_history" name || String.eqb name "fish_history"
     then HistoryLoader.fish_line
     else HistoryLoader.bash_line).
Proof.
  destruct (_ || _); [|destruct (_ || _)]; intros commands line.
  - unfold HistoryLoader.zsh_line.
    destruct (Py.startswith _ _).
    + destruct (Py.split_once _ _) as [|? [|? [|? ?]]].
      1,2,4: exists []; intros; by rewrite app_nil_r.
      eexists. intros. by rewrite app_assoc.
    + eexists. intros. by rewrite app_assoc.
  - unfold HistoryLoader.fish_line. destruct (Py.startswith _ _).
    + eexists. intros. by rewrite app_assoc.
    + exists []. intros. by rewrite app_nil_r.
  - unfold HistoryLoader.bash_line. destruct (Py.str_truthy _).
    + eexists. intros. by rewrite app_assoc.
    + exists []. intros. by rewrite app_nil_r.
Qed.

Lemma append_assoc s1 s2 s3 : (s1 +:+ s2) +:+ s3 = s1 +:+ s2 +:+ s3.
Proof.
  induction s1 as [|c s1 IH]; [done|].
  change (String c ((s1 +:+ s2) +:+ s3) = String c (s1 +:+ s2 +:+ s3)).
  by rewrite IH.
Qed.

Lemma prefix_refl s : String.prefix s s = true.
Proof.
  induction s as [|c s IH]; simpl; [done|]. by destruct (ascii_dec c c).
Qed.

Lemma startswith_app p s : Py.startswith (p +:+ s) p = true.
Proof.
  unfold Py.startswith. induction p as [|c p IH]; [by destruct s|].
  change (String.prefix (String c p) (String c (p +:+ s)) = true).
  simpl. by destruct (ascii_dec c c).
Qed.

Lemma contains_refl s : Py.contains s s = true.
Proof.
  destruct s as [|c s]; [done|].
  change (String.prefix (String c s) (String c s) || Py.contains (String c s) s
          = true).
  by rewrite prefix_refl.
Qed.

Lemma not_contains_not_eq sub name :
  Py.contains sub name = false → String.eqb name sub = false.
Proof.
  intros H. destruct (String.eqb_spec name sub) as [->|]; [|done].
  by rewrite contains_refl in H.
Qed.

Lemma foldl_bash_line lines : ∀ commands,
  foldl HistoryLoader.bash_line commands lines
  = commands ++ filter (λ cmd, cmd ≠ EmptyString) (Py.strip <$> lines).
Proof.
  induction lines as [|line lines IH]; intros commands; simpl.
  - by rewrite app_nil_r.
  - rewrite IH. unfold HistoryLoader.bash_line.
    destruct (Py.strip line) eqn:E; simpl.
    + by rewrite filter_cons_False by (by intros []).
    + rewrite filter_cons_True by done. by rewrite <- app_assoc.
Qed.

(** X5.  A file whose name holds neither [.zsh_history] nor
    [fish_history] is read as a plain list: every line stripped of the
    white space around it, the blank lines dropped, the order kept.  No
    command is empty or has white space at either end. *)
Theorem parse_plain_file name lines :
  Py.contains ".zsh_history" name = false →
  Py.contains "fish_history" name = false →
  HistoryLoader._parse_history_file name (HistoryLoader.mkFile lines None)
  = filter (λ cmd, cmd ≠ EmptyString) (Py.strip <$> lines) ∧
  Forall (λ cmd, cmd ≠ EmptyString ∧ Py.strip cmd = cmd)
    (HistoryLoader._parse_history_file name (HistoryLoader.mkFile lines None)).
Proof.
  intros Hzsh Hfish.
  assert (HistoryLoader._parse_history_file name
            (HistoryLoader.mkFile lines None)
          = filter (λ cmd, cmd ≠ EmptyString) (Py.strip <$> lines)) as ->.
  { unfold HistoryLoader._parse_history_file.
    rewrite Hzsh, Hfish, !not_contains_not_eq by done. simpl.
    pose proof (parse_loop_spec HistoryLoader.bash_line lines [] None) as H.
    destruct (HistoryLoader.parse_loop _ _ _ _) as [commands e].
    simpl in H. by rewrite H, foldl_bash_line. }
  split; [done|]. apply Forall_forall. intros cmd.
  rewrite list_elem_of_filter, list_elem_of_fmap.
  intros [Hne (line & -> & _)]. split; [done|]. apply strip_idempotent.
Qed.

Lemma parse_plain_file_witness :
  HistoryLoader._parse_history_file "tmp_history"
    (HistoryLoader.mkFile
       ["ls -la" +:+ CommandRunner.newline; CommandRunner.newline;
        "  git status "] None)
  = ["ls -la"; "git status"].
Proof.
  apply (proj1 (parse_plain_file "tmp_history"
                  ["ls -la" +:+ CommandRunner.newline; CommandRunner.newline;
                   "  git status "] eq_refl eq_refl)).
Defined.

(** X6.  A line of the extended zsh format, a colon, fields without a
    semicolon, a semicolon and the command, gives the command as it stands
    after the first semicolon: later semicolons and white space in front
    stay, the white space that ends the line goes. *)
Theorem zsh_extended_line commands fields cmd ws :
  ";"%char ∉ Py.chars fields →
  Py.rstrip cmd = cmd →
  Forall (λ c, Py.isspace_char c = true) (Py.chars ws) →
  HistoryLoader.zsh_line commands
    (":" +:+ fields +:+ ";" +:+ cmd +:+ ws)
  = commands ++ [cmd].
Proof.
  intros Hfields Hcmd Hws. unfold HistoryLoader.zsh_line.
  assert (Py.strip (":" +:+ fields +:+ ";" +:+ cmd +:+ ws)
          = String ":" fields +:+ String ";" cmd) as ->.
  { unfold Py.strip.
    change (":" +:+ fields +:+ ";" +:+ cmd +:+ ws)
      with (String ":" (fields +:+ String ";" (cmd +:+ ws))).
    change (Py.lstrip (String ":" (fields +:+ String ";" (cmd +:+ ws))))
      with (String ":" (fields +:+ String ";" (cmd +:+ ws))).
    change (String ":" (fields +:+ String ";" (cmd +:+ ws)))
      with (String ":" fields +:+ String ";" (cmd +:+ ws)).
    assert (String ":" fields +:+ String ";" (cmd +:+ ws)
            = (String ":" fields +:+ String ";" cmd) +:+ ws) as ->.
    { change (String ";" (cmd +:+ ws)) with (String ";" cmd +:+ ws).
      by rewrite append_assoc. }
    rewrite rstrip_app_space by done.
    apply rstrip_app_fixed. rewrite rstrip_nonspace by done.
    by rewrite Hcmd. }
  assert (Py.startswith (String ":" fields +:+ String ";" cmd) ":" = true)
    as -> by apply (startswith_app ":" (fields +:+ String ";" cmd)).
  rewrite split_once_first; [done|].
  apply not_elem_of_cons. split; [done|]. done.
Qed.

Lemma zsh_extended_line_witness :
  HistoryLoader.zsh_line []
    (": 1700000000:0; cd /tmp; ls" +:+ CommandRunner.newline)
  = [" cd /tmp; ls"].
Proof.
  apply (zsh_extended_line [] " 1700000000:0" " cd /tmp; ls"
           CommandRunner.newline).
  - apply (bool_decide_unpack _). vm_compute. exact I.
  - reflexivity.
  - repeat constructor.
Defined.

(** X7.  A line [- cmd:] of the fish format gives what follows the colon,
    stripped of the white space around it. *)
Theorem fish_cmd_line commands rest :
  HistoryLoader.fish_line commands ("- cmd:" +:+ rest)
  = commands ++ [Py.strip rest].
Proof.
  unfold HistoryLoader.fish_line.
  assert (Py.strip ("- cmd:" +:+ rest) = "- cmd:" +:+ Py.rstrip rest) as ->.
  { unfold Py.strip.
    change (Py.lstrip ("- cmd:" +:+ rest)) with ("- cmd:" +:+ rest).
    by apply (rstrip_app_nonspace "- cmd" ":" rest). }
  rewrite startswith_app.
  assert (Py.str_slice_from ("- cmd:" +:+ Py.rstrip rest) 6 = Py.rstrip rest)
    as ->.
  { unfold Py.str_slice_from, Py.slice_from. simpl.
    apply string_of_list_ascii_of_string. }
  unfold Py.strip. by rewrite lstrip_rstrip, rstrip_idempotent.
Qed.

(** X8.  When reading a history file fails after [k] lines, no exception
    leaves [_parse_history_file]: it returns what the first [k] lines
    give, which is the beginning of what the whole file would give. *)
Theorem parse_read_error name lines k :
  HistoryLoader._parse_history_file name
    (HistoryLoader.mkFile lines (Some k))
  = HistoryLoader._parse_history_file name
      (HistoryLoader.mkFile (take k lines) None) ∧
  HistoryLoader._parse_history_file name
    (HistoryLoader.mkFile lines (Some k))
  `prefix_of`
  HistoryLoader._parse_history_file name (HistoryLoader.mkFile lines None).
Proof.
  unfold HistoryLoader._parse_history_file. simpl.
  pose proof (bodies_append name) as Happ.
  set (body := if _ || _ then _ else _) in *.
  pose proof (parse_loop_spec body lines [] (Some k)) as H1.
  pose proof (parse_loop_spec body (take k lines) [] None) as H2.
  pose proof (parse_loop_spec body lines [] None) as H3.
  destruct (HistoryLoader.parse_loop body [] lines (Some k)) as [c1 e1].
  destruct (HistoryLoader.parse_loop body [] (take k lines) None) as [c2 e2].
  destruct (HistoryLoader.parse_loop body [] lines None) as [c3 e3].
  simpl in *. subst. split; [done|].
  rewrite <- (take_drop k lines) at 2. rewrite foldl_app.
  destruct (foldl_appends body (drop k lines)
              (foldl body [] (take k lines)) Happ) as [new ->].
  by apply prefix_app_r.
Qed.

(** X9.  When none of the history files that exist can be opened, and so
    also when none exists, [load_history] returns the empty list. *)
Theorem load_nothing_readable home :
  (∀ name f, home name = Some f → HistoryLoader.read_error f = Some 0%nat) →
  HistoryLoader.load_history_from home = [].
Proof.
  intros Hhome.
  assert (∀ name f, home name = Some f →
                    HistoryLoader._parse_history_file name f = []) as Hparse.
  { intros name [lines e] Hf. apply Hhome in Hf. simpl in Hf. subst e.
    unfold HistoryLoader._parse_history_file. simpl. by destruct lines. }
  unfold HistoryLoader.load_history_from, HistoryLoader._detect_history_files,
    HistoryLoader.potential_files. simpl.
  destruct (home ".bash_history") as [f1|] eqn:E1;
    destruct (home ".zsh_history") as [f2|] eqn:E2;
    destruct (home "fish_history") as [f3|] eqn:E3; simpl;
    rewrite ?(Hparse _ _ E1), ?(Hparse _ _ E2), ?(Hparse _ _ E3); done.
Qed.

Lemma load_nothing_readable_witness :
  HistoryLoader.load_history_from
    (λ name, if String.eqb name ".zsh_history"
             then Some (HistoryLoader.mkFile [": 1:0;ls"] (Some 0%nat))
             else None)
  = [].
Proof.
  apply load_nothing_readable. intros name f.
  destruct (String.eqb name ".zsh_history"); [|done]. by intros [= <-].
Defined.

(** ** The frequency counter *)

Lemma counter_update_nodup (l : list string) : ∀ counter : gmap string Z,
  NoDup l →
  (∀ x, x ∈ l → counter !! x = None) →
  ∀ x, HistoryLoader.counter_update counter l !! x
       = if decide (x ∈ l) then Some 1 else counter !! x.
Proof.
  unfold HistoryLoader.counter_update.
  induction l as [|y l IH]; intros counter Hnd Hfresh x; simpl.
  - destruct (decide (x ∈ [])) as [?%elem_of_nil|]; done.
  - apply NoDup_cons in Hnd as [Hy Hnd].
    rewrite IH; [|done|].
    + rewrite (Hfresh y) by by left. simpl.
      destruct (decide (x ∈ l)) as [Hx|Hx];
        destruct (decide (x ∈ y :: l)) as [Hx'|Hx'].
      * done.
      * exfalso. apply Hx'. by right.
      * apply elem_of_cons in Hx' as [->|?]; [|done].
        by rewrite lookup_insert_eq.
      * rewrite lookup_insert_ne; [done|]. intros ->. apply Hx'. by left.
    + intros z Hz. rewrite lookup_insert_ne; [apply Hfresh; by right|].
      intros ->. done.
Qed.

(** X10.  With the counter a fresh loader has, [load_history] counts every
    loaded command once, so that [rank_by_frequency] afterwards pairs
    every command, loaded or not, with 1 and keeps the order it is given:
    it ranks nothing. *)
Theorem rank_by_frequency_flat parsed commands :
  HistoryLoader.rank_by_frequency
    (HistoryLoader.load_history_frequency ∅ parsed) commands
  = (λ cmd, (cmd, 1)) <$> commands.
Proof.
  unfold HistoryLoader.rank_by_frequency, HistoryLoader.load_history_frequency.
  apply list_fmap_ext. intros _ cmd _. f_equal.
  rewrite counter_update_nodup.
  - destruct (decide _); [done|]. by rewrite lookup_empty.
  - apply load_history_NoDup.
  - intros. apply lookup_empty.
Qed.

(** ** The runner *)

Lemma append_nil_r s : s +:+ EmptyString = s.
Proof.
  induction s as [|c s IH]; [done|].
  change (String c (s +:+ EmptyString) = String c s). by rewrite IH.
Qed.

Lemma prefix_take n : ∀ s,
  String.prefix (string_of_list_ascii (take n (Py.chars s))) s = true.
Proof.
  induction n as [|n IH]; intros [|c s]; simpl; try done.
  destruct (ascii_dec c c); [apply IH|done].
Qed.

(** X11.  [execute] never raises.  It hands the command to the shell
    once and returns whether the shell reported the exit status 0; when
    the shell cannot be started it returns [False]. *)
Theorem execute_returns_exit_status command log w :
  ∃ w',
    CommandRunner.execute command log w
    = (Ok (bool_decide (shell w command = Some 0)), w') ∧
    shell_runs w' = shell_runs w ++ [command].
Proof.
  unfold CommandRunner.execute, IO.bind, CommandRunner._log_command,
    IO.try_except_Exception, CommandRunner.log_write,
    CommandRunner.subprocess_run, IO.ret.
  assert (bool_decide (shell w command = Some 0)
          = match shell w command with
            | Some returncode => returncode =? 0
            | None => false
            end) as ->.
  { destruct (shell w command) as [returncode|]; [|done].
    destruct (Z.eqb_spec returncode 0) as [->|Hne].
    - by rewrite bool_decide_eq_true_2.
    - rewrite bool_decide_eq_false_2; [done|congruence]. }
  destruct log; [destruct (log_io w)|]; simpl;
    destruct (shell w command) as [returncode|]; simpl;
    eexists; split; done.
Qed.

(** X12.  [execute] never shortens or rewrites the log: afterwards the
    log file is its former contents followed by the entry of the command
    or, when writing failed, by a beginning of that entry; with logging
    off the file is untouched. *)
Theorem execute_log_append_only command log w :
  ∃ success w' written,
    CommandRunner.execute command log w = (Ok success, w') ∧
    log_file w' = log_file w +:+ written ∧
    String.prefix written (CommandRunner.log_entry (now w) command) = true ∧
    (log = false ∨ log_io w = OpenFails → written = EmptyString) ∧
    (log = true → log_io w = LogOk →
     written = CommandRunner.log_entry (now w) command).
Proof.
  assert (∃ w1 written,
            (if log then CommandRunner._log_command command else IO.ret ()) w
            = (Ok (), w1) ∧
            log_file w1 = log_file w +:+ written ∧
            String.prefix written (CommandRunner.log_entry (now w) command)
            = true ∧
            (log = false ∨ log_io w = OpenFails → written = EmptyString) ∧
            (log = true → log_io w = LogOk →
             written = CommandRunner.log_entry (now w) command))
    as (w1 & written & Hlog & Hfile & Hprefix & Hoff & Hon).
  { destruct log.
    - unfold CommandRunner._log_command, IO.try_except_Exception,
        CommandRunner.log_write, IO.ret.
      destruct (log_io w) as [| |n] eqn:Hio.
      + eexists _, (CommandRunner.log_entry (now w) command).
        split; [done|]. split; [done|]. split; [apply prefix_refl|].
        split; [by intros [|]|done].
      + eexists _, EmptyString.
        split; [done|]. split; [by rewrite append_nil_r|]. done.
      + eexists _, (string_of_list_ascii
                      (take n (Py.chars
                                 (CommandRunner.log_entry (now w) command)))).
        split; [done|]. split; [done|]. split; [apply prefix_take|].
        split; [by intros [|]|done].
    - exists w, EmptyString. unfold IO.ret.
      split; [done|]. split; [by rewrite append_nil_r|]. done. }
  unfold CommandRunner.execute, IO.bind. rewrite Hlog.
  unfold IO.try_except_Exception, CommandRunner.subprocess_run, IO.ret.
  destruct (shell w1 command); simpl; eexists _, _, written; done.
Qed.

(** ** The filtered view *)

Lemma update_filter_view q self self' :
  HistUI._update_filter (HistUI.set_query q self) = Ok self' →
  view_invariant self' ∧ history self' = history self ∧
  max_display self' = max_display self ∧ query self' = q.
Proof.
  destruct (update_filter_spec (HistUI.set_query q self))
    as (filtered & Hfiltered & ->).
  intros [= <-]. simpl in *. split; [|done].
  unfold view_invariant. simpl.
  destruct (Py.str_truthy q) eqn:Hq.
  - rewrite filter_history_eq in Hfiltered. injection Hfiltered as <-.
    split; [|split].
    + rewrite <- (filter_all (history self)) at 2.
      by apply filter_sublist_mono.
    + apply Forall_forall. intros cmd [_ Hcmd]%list_elem_of_In%filter_In.
      destruct (matches_total cmd q) as (b & Hb & _).
      rewrite Hb in *. simpl in Hcmd. by subst.
    + intros _. apply filter_history_eq.
  - injection Hfiltered as <-. apply str_truthy_false in Hq as ->.
    split; [done|]. split; [|done].
    apply Forall_forall. by intros cmd _.
Qed.

Lemma view_invariant_index self i :
  view_invariant self → view_invariant (HistUI.set_selected_idx i self).
Proof. done. Qed.

Lemma step_view self w self' w' :
  view_invariant self →
  HistUI.loop_body self w = (Ok (Continue, self'), w') →
  view_invariant self' ∧ history self' = history self ∧
  max_display self' = max_display self.
Proof.
  intros Hview Hstep.
  apply loop_body_outcome in Hstep
    as (_ & _ & _ & [->|[->|[->|[q Hq]]]]).
  - done.
  - unfold HistUI._move_selection_up. by destruct (_ >? _).
  - unfold HistUI._move_selection_down. by destruct (_ <? _).
  - apply update_filter_view in Hq. tauto.
Qed.

Lemma start_view w self w' :
  HistUI.run_setup HistUI.__init__ w = (Ok self, w') →
  view_invariant self ∧ w' = w ∧
  history self = HistoryLoader.load_history (parsed_files w) ∧
  max_display self = 15.
Proof.
  rewrite run_setup_spec.
  destruct (HistoryLoader.load_history (parsed_files w)) as [|cmd cmds];
    [done|].
  intros [= <- <-]. split; [|done]. split; [|split]; simpl.
  - apply sublist_skip, sublist_take.
  - apply Forall_forall. by intros c _.
  - done.
Qed.

Lemma reachable_view self :
  reachable self → view_invariant self ∧ max_display self = 15.
Proof.
  induction 1 as [w self w' Hstart|self w self' w' _ [IH Hmax] Hstep].
  - apply start_view in Hstart. tauto.
  - destruct (step_view _ _ _ _ IH Hstep) as (? & ? & ->). done.
Qed.

(** X13.  In every state a session can reach, the filtered list is a
    part of the history in the order of the history, all its commands
    match the query, and, when the query is not empty, it is exactly what
    [filter_history] gives for the history and the query.  The display
    cap is 15 throughout. *)
Theorem filtered_view self :
  reachable self →
  filtered_history self `sublist_of` history self ∧
  Forall (λ cmd, HistoryLoader.matches cmd (query self) = Ok true)
    (filtered_history self) ∧
  (Py.str_truthy (query self) = true →
   HistoryLoader.filter_history (history self) (query self)
   = Ok (filtered_history self)) ∧
  max_display self = 15.
Proof.
  intros [(H1 & H2 & H3) H4]%reachable_view. done.
Qed.

Lemma filtered_view_witness :
  filtered_history sample_start `sublist_of` history sample_start ∧
  Forall (λ cmd, HistoryLoader.matches cmd (query sample_start) = Ok true)
    (filtered_history sample_start) ∧
  (Py.str_truthy (query sample_start) = true →
   HistoryLoader.filter_history (history sample_start) (query sample_start)
   = Ok (filtered_history sample_start)) ∧
  max_display sample_start = 15.
Proof.
  apply (filtered_view sample_start).
  apply (reachable_start (sample_world [sample_history] EmptyString) _
           (sample_world [sample_history] EmptyString)).
  vm_compute. reflexivity.
Defined.

(** ** The session as a whole *)




(** X16.  After the escape character the next two characters are always
    consumed with it; unless they are [[A] or [[B], the state is left as
    it is, whatever they are, an interrupt or a confirm included. *)
Theorem escape_swallows_two self w a b rest :
  stdin w = "027"%char :: a :: b :: rest →
  ¬ (a = "["%char ∧ (b = "A"%char ∨ b = "B"%char)) →
  HistUI.loop_body self w = (Ok (Continue, self), set_stdin rest w).
Proof.
  intros Hin Hab. read_stdin Hin. simpl.
  unfold HistUI.char_is. simpl.
  destruct (Ascii.eqb_spec a "[") as [->|_]; [|done].
  destruct (Ascii.eqb_spec b "A") as [->|_]; [tauto|].
  destruct (Ascii.eqb_spec b "B") as [->|_]; [tauto|done].
Qed.

Lemma escape_swallows_two_witness :
  HistUI.loop_body sample_start
    (sample_world [sample_history] (esc +:+ ctrl_c +:+ enter +:+ "x"))
  = (Ok (Continue, sample_start),
     set_stdin ["x"%char]
       (sample_world [sample_history] (esc +:+ ctrl_c +:+ enter +:+ "x"))).
Proof.
  apply (escape_swallows_two sample_start _ "003" "013" ["x"%char]).
  - reflexivity.
  - intros [? _]. discriminate.
Defined.

(** X17.  A character that is neither printable nor one of interrupt,
    escape, carriage return, line feed and delete is consumed without
    effect, as is a backspace when the query is empty. *)
Theorem ignored_input self w c rest :
  stdin w = c :: rest →
  (Py.isprintable_char c = false ∧
   c ∉ ["003"; "027"; "013"; "010"; "127"]%char) ∨
  (c = "127"%char ∧ query self = EmptyString) →
  HistUI.loop_body self w = (Ok (Continue, self), set_stdin rest w).
Proof.
  intros Hin [[Hp Hc]|[-> Hq]].
  - apply (loop_body_ignored _ _ c rest); try done;
      intros ->; apply Hc; repeat constructor.
  - rewrite (loop_body_backspace _ _ rest) by done. by rewrite Hq.
Qed.

Lemma ignored_input_witness :
  HistUI.loop_body sample_start
    (sample_world [sample_history] (String "009" backspace))
  = (Ok (Continue, sample_start),
     set_stdin ["127"%char]
       (sample_world [sample_history] (String "009" backspace))) ∧
  HistUI.loop_body sample_start (sample_world [sample_history] backspace)
  = (Ok (Continue, sample_start),
     set_stdin [] (sample_world [sample_history] backspace)).
Proof.
  split.
  - apply (ignored_input sample_start _ "009" ["127"%char]); [reflexivity|].
    left. split; [reflexivity|]. apply (bool_decide_unpack _).
    vm_compute. exact I.
  - apply (ignored_input sample_start _ "127" []); [reflexivity|].
    right. done.
Defined.

(** ** Editing the query *)


Lemma update_filter_idx self self' :
  0 ≤ selected_idx self →
  HistUI._update_filter self = Ok self' →
  selected_idx self'
  = Z.min (selected_idx self)
      (Z.max 0 (Py.len (filtered_history self') - 1)) ∧
  0 ≤ selected_idx self'.
Proof.
  intros Hidx. destruct (update_filter_spec self) as (filtered & _ & ->).
  intros [= <-]. simpl. pose proof (len_nonneg filtered).
  destruct (Z.geb_spec (selected_idx self) (Py.len filtered)); lia.
Qed.

(** X18.  [_update_filter] clamps: with a non-negative index before, the
    index afterwards is the smaller of the index before and the last
    position of the new filtered list (0 when that list is empty); the
    query and the history stay, and a second [_update_filter] changes
    nothing. *)
Theorem update_filter_clamps self :
  0 ≤ selected_idx self →
  ∃ self',
    HistUI._update_filter self = Ok self' ∧
    selected_idx self'
    = Z.min (selected_idx self)
        (Z.max 0 (Py.len (filtered_history self') - 1)) ∧
    query self' = query self ∧ history self' = history self ∧
    HistUI._update_filter self' = Ok self'.
Proof.
  intros Hidx. destruct (update_filter_spec self) as (filtered & Hf & Hupd).
  eexists. split; [exact Hupd|].
  split; [by apply (update_filter_idx self)|].
  split; [done|]. split; [done|].
  destruct (update_filter_spec
              (HistUI.mk (query self)
                 (if selected_idx self >=? Py.len filtered
                  then Z.max 0 (Py.len filtered - 1) else selected_idx self)
                 (max_display self) (history self) filtered))
    as (filtered' & Hf' & ->).
  simpl in *. rewrite Hf in Hf'. injection Hf' as <-.
  do 2 f_equal. pose proof (len_nonneg filtered).
  destruct (Z.geb_spec (selected_idx self) (Py.len filtered)).
  - destruct (Z.geb_spec (Z.max 0 (Py.len filtered - 1)) (Py.len filtered));
      lia.
  - destruct (Z.geb_spec (selected_idx self) (Py.len filtered)); lia.
Qed.

Lemma update_filter_clamps_witness :
  ∃ self',
    HistUI._update_filter (HistUI.mk "git" 3 15 sample_history sample_history)
    = Ok self' ∧
    selected_idx self'
    = Z.min 3 (Z.max 0 (Py.len (filtered_history self') - 1)) ∧
    query self' = "git" ∧ history self' = sample_history ∧
    HistUI._update_filter self' = Ok self'.
Proof.
  apply (update_filter_clamps
           (HistUI.mk "git" 3 15 sample_history sample_history)).
  simpl. lia.
Defined.


(** X20.  Moving down and then up, or up and then down, comes back to
    the same state whenever the first move changed the index: below the
    last position for down-up, above 0 and within the list for up-down. *)
Theorem moves_are_inverse self :
  (0 ≤ selected_idx self < Py.len (filtered_history self) - 1 →
   HistUI._move_selection_up (HistUI._move_selection_down self) = self) ∧
  (0 < selected_idx self < Py.len (filtered_history self) →
   HistUI._move_selection_down (HistUI._move_selection_up self) = self).
Proof.
  destruct self as [q i m h f].
  unfold HistUI._move_selection_up, HistUI._move_selection_down. simpl.
  split; intros Hi.
  - destruct (Z.ltb_spec i (Py.len f - 1)); [|lia]. simpl.
    destruct (Z.gtb_spec (i + 1) 0); [|lia].
    unfold HistUI.set_selected_idx. simpl. f_equal. lia.
  - destruct (Z.gtb_spec i 0); [|lia]. simpl.
    destruct (Z.ltb_spec (i - 1) (Py.len f - 1)); [|lia].
    unfold HistUI.set_selected_idx. simpl. f_equal. lia.
Qed.

Lemma moves_are_inverse_witness :
  HistUI._move_selection_up (HistUI._move_selection_down sample_start)
  = sample_start ∧
  HistUI._move_selection_down
    (HistUI._move_selection_up (HistUI.set_selected_idx 2 sample_start))
  = HistUI.set_selected_idx 2 sample_start.
Proof.
  split.
  - apply (proj1 (moves_are_inverse sample_start)).
    unfold Py.len. simpl. lia.
  - apply (proj2 (moves_are_inverse (HistUI.set_selected_idx 2 sample_start))).
    unfold Py.len. simpl. lia.
Defined.

(** ** The display *)

Lemma range_spec n :
  length (Py.range n) = Z.to_nat n ∧ Forall (λ i, 0 ≤ i < n) (Py.range n).
Proof.
  unfold Py.range. split; [by rewrite length_fmap, length_seq|].
  apply Forall_forall. intros i (k & -> & Hk)%list_elem_of_fmap.
  apply list_elem_of_In, in_seq in Hk. lia.
Qed.

Lemma plain_row_unmarked cmd : unmarked ("  " +:+ cmd).
Proof.
  unfold unmarked. change ("  " +:+ cmd) with (String " " (String " " cmd)).
  simpl. by destruct (ascii_dec "[" " ").
Qed.

Lemma render_rows_spec arrow self indices : ∀ display_lines,
  Forall (λ i, 0 ≤ i < Py.len (filtered_history self)) indices →
  ∃ rows,
    HistUI.render_rows arrow self indices display_lines
    = Ok (display_lines ++ rows) ∧
    length rows = length indices ∧
    (Forall (λ i, i ≠ selected_idx self) indices → Forall unmarked rows).
Proof.
  induction indices as [|i indices IH]; intros display_lines Hin.
  - exists []. simpl. by rewrite app_nil_r.
  - apply Forall_cons in Hin as [[H0 Hlt] Hin].
    destruct (lookup_lt_is_Some_2 (filtered_history self) (Z.to_nat i))
      as [cmd Hcmd]; [unfold Py.len in Hlt; lia|].
    assert (Py.getitem (filtered_history self) i = Ok cmd) as Hget.
    { rewrite <- (Z2Nat.id i) by done. by rewrite getitem_nat, Hcmd. }
    cbn [HistUI.render_rows]. rewrite Hget. cbn [Py.bind].
    destruct (IH (display_lines ++
                  [if i =? selected_idx self
                   then "[bold green]" +:+ arrow +:+ " " +:+ cmd
                          +:+ "[/bold green]"
                   else "  " +:+ cmd]) Hin) as (rows & -> & Hlen & Hun).
    eexists (_ :: rows). split; [by rewrite <- app_assoc|].
    split; [simpl; by rewrite Hlen|].
    intros [Hi Hrest]%Forall_cons. apply Forall_cons. split; [|by apply Hun].
    destruct (Z.eqb_spec i (selected_idx self)); [done|].
    apply plain_row_unmarked.
Qed.

(** X21.  [_render_ui] never fails on an index.  For an empty filtered
    list it shows one line; otherwise it shows one row for each of the
    first [max_display] commands and, when there are more commands than
    that, one further line that counts the rest. *)
Theorem render_row_count arrow self :
  ∃ lines,
    HistUI._render_ui_lines arrow self = Ok lines ∧
    length lines
    = match filtered_history self with
      | [] => 1%nat
      | _ :: _ =>
          (Z.to_nat (Z.min (Py.len (filtered_history self)) (max_display self))
           + if Py.len (filtered_history self) >? max_display self
             then 1 else 0)%nat
      end.
Proof.
  unfold HistUI._render_ui_lines.
  destruct (filtered_history self) as [|cmd cmds] eqn:Hf; [by eexists|].
  set (n := Z.min (Py.len (cmd :: cmds)) (max_display self)).
  destruct (range_spec n) as [Hlen Hrange].
  destruct (render_rows_spec arrow self (Py.range n) [])
    as (rows & Hrows & Hcount & _).
  { rewrite Hf. eapply Forall_impl; [exact Hrange|]. simpl. lia. }
  cbn [Py.list_truthy]. cbv zeta. fold n. rewrite Hrows. cbn [Py.bind app].
  eexists. split; [done|].
  destruct (_ >? _); rewrite ?length_app; simpl; lia.
Qed.

(** With sixteen commands, typing a character, erasing it and moving
    down fifteen times puts the selection on the sixteenth command. *)
Example beyond_display_reachable : reachable beyond_display.
Proof.
  apply (continues_reachable 17
           (HistUI.mk EmptyString 0 15 sixteen (take 15 sixteen))
           (sample_world [sixteen]
              ("c" +:+ backspace
               +:+ esc +:+ "[B" +:+ esc +:+ "[B" +:+ esc +:+ "[B"
               +:+ esc +:+ "[B" +:+ esc +:+ "[B" +:+ esc +:+ "[B"
               +:+ esc +:+ "[B" +:+ esc +:+ "[B" +:+ esc +:+ "[B"
               +:+ esc +:+ "[B" +:+ esc +:+ "[B" +:+ esc +:+ "[B"
               +:+ esc +:+ "[B" +:+ esc +:+ "[B" +:+ esc +:+ "[B"))
           _ (sample_world [sixteen] EmptyString)).
  - apply (reachable_start (sample_world [sixteen] EmptyString) _
             (sample_world [sixteen] EmptyString)).
    vm_compute. reflexivity.
  - vm_compute. reflexivity.
Qed.

(** X22.  When the index is in range but not below the display cap,
    which a session can reach, no displayed row carries the mark of the
    selection, and yet the confirm event acts on the command at the index,
    a command that is not on display: the command is announced and, unless
    the console raises for the announcement, run. *)
Theorem hidden_selection arrow self w rest :
  0 ≤ selected_idx self →
  max_display self ≤ selected_idx self < Py.len (filtered_history self) →
  stdin w = "013"%char :: rest →
  (∃ lines,
     HistUI._render_ui_lines arrow self = Ok lines ∧ Forall unmarked lines) ∧
  ∃ cmd,
    filtered_history self !! Z.to_nat (selected_idx self) = Some cmd ∧
    (Z.to_nat (max_display self) ≤ Z.to_nat (selected_idx self))%nat ∧
    match console w (HistUI.executing_line cmd) with
    | None =>
        ∃ w', HistUI.loop_body self w = (Ok (Break, self), w') ∧
              shell_runs w' = shell_runs w ++ [cmd]
    | Some e => HistUI.loop_body self w = (Raise e, set_stdin rest w)
    end.
Proof.
  intros H0 [Hmax Hlt] Hin. split.
  - unfold HistUI._render_ui_lines.
    destruct (filtered_history self) as [|c0 cmds] eqn:Hf.
    { eexists. split; [done|]. by repeat constructor. }
    set (n := Z.min (Py.len (c0 :: cmds)) (max_display self)).
    destruct (range_spec n) as [_ Hrange].
    destruct (render_rows_spec arrow self (Py.range n) [])
      as (rows & Hrows & _ & Hun).
    { rewrite Hf. eapply Forall_impl; [exact Hrange|]. simpl. lia. }
    cbn [Py.list_truthy]. cbv zeta. fold n. rewrite Hrows. cbn [Py.bind app].
    eexists. split; [done|].
    assert (Forall unmarked rows) as Hunmarked.
    { apply Hun. eapply Forall_impl; [exact Hrange|]. simpl. lia. }
    destruct (_ >? _); [|done].
    apply Forall_app. split; [done|]. by repeat constructor.
  - assert (index_in_range self) as Hrange.
    { split; [|lia]. intros Hf. rewrite Hf in Hlt.
      unfold Py.len in Hlt. simpl in Hlt. lia. }
    destruct (confirm_outcome self w "013" rest) as [Hyes _];
      [by left|done|].
    destruct (Hyes Hrange) as (cmd & Hcmd & Hcase).
    exists cmd. split; [done|]. split; [lia|].
    destruct (console w (HistUI.executing_line cmd)); [done|].
    destruct Hcase as (w' & ? & ? & _). eauto.
Qed.

Lemma hidden_selection_witness :
  (∃ lines,
     HistUI._render_ui_lines ">" beyond_display = Ok lines ∧
     Forall unmarked lines) ∧
  ∃ cmd w',
    filtered_history beyond_display !! Z.to_nat (selected_idx beyond_display)
    = Some cmd ∧
    (Z.to_nat (max_display beyond_display)
     ≤ Z.to_nat (selected_idx beyond_display))%nat ∧
    HistUI.loop_body beyond_display (sample_world [sixteen] enter)
    = (Ok (Break, beyond_display), w') ∧
    shell_runs w' = shell_runs (sample_world [sixteen] enter) ++ [cmd].
Proof.
  destruct (hidden_selection ">" beyond_display
              (sample_world [sixteen] enter) [])
    as [Hrows (cmd & Hcmd & Hmax & w' & Hbody & Hruns)].
  - simpl. lia.
  - unfold Py.len. simpl. lia.
  - reflexivity.
  - split; [exact Hrows|]. exists cmd, w'.
    split; [exact Hcmd|]. split; [exact Hmax|]. split; [exact Hbody|].
    exact Hruns.
Defined.

(** ** Typing and erasing *)





(** ** utils.py *)

Lemma str_len_app s1 s2 : Py.str_len (s1 +:+ s2) = Py.str_len s1 + Py.str_len s2.
Proof. unfold Py.str_len. by rewrite chars_app, len_app. Qed.

Lemma str_len_slice_to s stop :
  0 ≤ stop →
  Py.str_len (Py.str_slice_to s stop) = Z.min stop (Py.str_len s).
Proof.
  intros Hstop. unfold Py.str_len, Py.str_slice_to, Py.slice_to, Py.chars.
  destruct (Z.ltb_spec stop 0); [lia|].
  rewrite list_ascii_of_string_of_list_ascii. unfold Py.len.
  rewrite length_take. lia.
Qed.

Lemma str_len_slice_to_negative s stop :
  stop < 0 →
  Py.str_len (Py.str_slice_to s stop) = Z.max 0 (Py.str_len s + stop).
Proof.
  intros Hstop. unfold Py.str_len, Py.str_slice_to, Py.slice_to, Py.chars.
  destruct (Z.ltb_spec stop 0); [|lia].
  rewrite list_ascii_of_string_of_list_ascii. unfold Py.len.
  rewrite length_take. lia.
Qed.

(** X23.  With a cap of at least 3, [truncate_command] returns a string
    of at most [max_length] characters: the command itself when it fits,
    else exactly [max_length] characters that end in three dots.
    Truncating the result again changes nothing. *)
Theorem truncate_command_length command max_length :
  3 ≤ max_length →
  Py.str_len (Utils.truncate_command command max_length)
  = Z.min (Py.str_len command) max_length ∧
  (max_length < Py.str_len command →
   ∃ kept, Utils.truncate_command command max_length = kept +:+ "..." ∧
           String.prefix kept command = true) ∧
  Utils.truncate_command (Utils.truncate_command command max_length)
    max_length
  = Utils.truncate_command command max_length.
Proof.
  intros Hmax.
  assert (Py.str_len (Utils.truncate_command command max_length)
          = Z.min (Py.str_len command) max_length) as Hlen.
  { unfold Utils.truncate_command.
    destruct (Z.leb_spec (Py.str_len command) max_length); [lia|].
    rewrite str_len_app, str_len_slice_to by lia.
    change (Py.str_len "...") with 3. lia. }
  split; [done|]. split.
  - intros Hlong. unfold Utils.truncate_command.
    destruct (Z.leb_spec (Py.str_len command) max_length); [lia|].
    eexists. split; [done|].
    unfold Py.str_slice_to, Py.slice_to.
    destruct (Z.ltb_spec (max_length - 3) 0); [lia|]. apply prefix_take.
  - unfold Utils.truncate_command at 1.
    destruct (Z.leb_spec (Py.str_len (Utils.truncate_command command max_length))
                max_length); [done|lia].
Qed.

Lemma truncate_command_length_witness :
  Py.str_len (Utils.truncate_command "git commit --amend" 10)
  = Z.min (Py.str_len "git commit --amend") 10 ∧
  (∃ kept, Utils.truncate_command "git commit --amend" 10 = kept +:+ "..." ∧
           String.prefix kept "git commit --amend" = true) ∧
  Utils.truncate_command (Utils.truncate_command "git commit --amend" 10) 10
  = Utils.truncate_command "git commit --amend" 10.
Proof.
  destruct (truncate_command_length "git commit --amend" 10) as (H1 & H2 & H3).
  - lia.
  - split; [exact H1|]. split; [|exact H3]. apply H2. vm_compute. reflexivity.
Defined.

(** X24.  With a cap below 3, a command longer than the cap is not cut
    down to it: the result has three characters or more, so it is longer
    than the cap, and for a cap of 1 or 2 it is even longer than the
    command. *)
Theorem truncate_command_small_cap command max_length :
  max_length < 3 →
  max_length < Py.str_len command →
  max_length < Py.str_len (Utils.truncate_command command max_length) ∧
  Py.str_len (Utils.truncate_command command max_length)
  = Z.max 3 (Py.str_len command + max_length).
Proof.
  intros Hmax Hlong. unfold Utils.truncate_command.
  destruct (Z.leb_spec (Py.str_len command) max_length); [lia|].
  rewrite str_len_app, str_len_slice_to_negative by lia.
  change (Py.str_len "...") with 3. lia.
Qed.

Lemma truncate_command_small_cap_witness :
  2 < Py.str_len (Utils.truncate_command "git status" 2) ∧
  Py.str_len (Utils.truncate_command "git status" 2)
  = Z.max 3 (Py.str_len "git status" + 2).
Proof.
  apply (truncate_command_small_cap "git status" 2).
  - lia.
  - vm_compute. reflexivity.
Defined.

Lemma format_rows_query arrow commands selected_idx query indices :
  ∀ lines,
    Utils.format_rows arrow commands selected_idx query indices lines
    = Utils.format_rows arrow commands selected_idx EmptyString indices lines.
Proof.
  induction indices as [|i indices IH]; intros lines; simpl; [done|].
  destruct (Py.getitem commands i) as [cmd|e]; simpl; [|done].
  rewrite IH. unfold Utils.highlight_query. by destruct (Py.str_truthy query).
Qed.

(** X25.  The query given to [format_command_list] has no effect on
    what it returns: nothing is highlighted. *)
Theorem format_command_list_ignores_query arrow commands max_display
    selected_idx query :
  Utils.format_command_list arrow commands max_display selected_idx query
  = Utils.format_command_list arrow commands max_display selected_idx
      EmptyString.
Proof.
  unfold Utils.format_command_list, Utils.format_command_lines.
  by rewrite format_rows_query.
Qed.

Lemma format_rows_spec arrow commands selected_idx query indices :
  ∀ lines,
    Forall (λ i, 0 ≤ i < Py.len commands) indices →
    ∃ rows,
      Utils.format_rows arrow commands selected_idx query indices lines
      = Ok (lines ++ rows) ∧
      length rows = length indices ∧
      (Forall (λ i, i ≠ selected_idx) indices →
       Forall (λ row, Py.startswith row "  " = true) rows).
Proof.
  induction indices as [|i indices IH]; intros lines Hin.
  - exists []. simpl. by rewrite app_nil_r.
  - apply Forall_cons in Hin as [[H0 Hlt] Hin].
    destruct (lookup_lt_is_Some_2 commands (Z.to_nat i)) as [cmd Hcmd];
      [unfold Py.len in Hlt; lia|].
    assert (Py.getitem commands i = Ok cmd) as Hget.
    { rewrite <- (Z2Nat.id i) by done. by rewrite getitem_nat, Hcmd. }
    cbn [Utils.format_rows]. rewrite Hget. cbn [Py.bind].
    match goal with
    | |- context [Utils.format_rows _ _ _ _ _ (lines ++ [?row])] =>
        destruct (IH (lines ++ [row]) Hin) as (rows & -> & Hlen & Hplain);
        exists (row :: rows)
    end.
    split; [by rewrite <- app_assoc|]. split; [simpl; by rewrite Hlen|].
    intros [Hi Hrest]%Forall_cons. apply Forall_cons.
    split; [|by apply Hplain].
    destruct (Z.eqb_spec i selected_idx); [done|].
    unfold Utils.highlight_query.
    destruct (Py.str_truthy query); apply (startswith_app "  " cmd).
Qed.

(** X26.  [format_command_list] never fails on an index.  Of a
    non-empty list it formats one row for each of the first
    [max_display] commands and, when there are more, one further line;
    when the selected index is not the index of a formatted row, as with
    its default -1, every row starts with two spaces, so none is marked.
    For the empty list it returns [No commands found.]. *)
Theorem format_command_list_rows arrow commands max_display selected_idx
    query :
  Utils.format_command_list arrow [] max_display selected_idx query
  = Ok "No commands found." ∧
  ∃ rows more,
    Utils.format_command_lines arrow commands max_display selected_idx query
    = Ok (rows ++ more) ∧
    length rows = Z.to_nat (Z.min (Py.len commands) max_display) ∧
    length more = (if Py.len commands >? max_display then 1 else 0)%nat ∧
    (selected_idx < 0 ∨ Z.min (Py.len commands) max_display ≤ selected_idx →
     Forall (λ row, Py.startswith row "  " = true) rows).
Proof.
  split; [done|]. unfold Utils.format_command_lines.
  set (n := Z.min (Py.len commands) max_display).
  destruct (range_spec n) as [Hlen Hrange].
  destruct (format_rows_spec arrow commands selected_idx query
              (Py.range n) []) as (rows & -> & Hcount & Hplain).
  { eapply Forall_impl; [exact Hrange|]. simpl. lia. }
  cbn [Py.bind app].
  exists rows, (if Py.len commands >? max_display
                then ["  ... and "
                        +:+ Py.str_of_int (Py.len commands - max_display)
                        +:+ " more"]
                else []).
  split; [|split; [lia|split]].
  - destruct (_ >? _); [done|by rewrite app_nil_r].
  - by destruct (_ >? _).
  - intros Hsel. apply Hplain.
    eapply Forall_impl; [exact Hrange|]. simpl. lia.
Qed.

Lemma format_command_list_rows_witness :
  ∃ rows more,
    Utils.format_command_lines ">" sample_history 3 (-1) EmptyString
    = Ok (rows ++ more) ∧
    length rows = 3%nat ∧ length more = 1%nat ∧
    Forall (λ row, Py.startswith row "  " = true) rows.
Proof.
  destruct (proj2 (format_command_list_rows ">" sample_history 3 (-1)
                     EmptyString))
    as (rows & more & Hlines & Hrows & Hmore & Hplain).
  exists rows, more. split; [exact Hlines|]. split; [exact Hrows|].
  split; [exact Hmore|]. apply Hplain. left. lia.
Defined.
